(** * PSPHomebrewScraper: a shallow embedding of [scraper.py]

    The scraper enumerates the identifiers of an archive.org collection,
    fetches the metadata of every item, derives one record per item
    (title, category, tags, download URL) and writes the records that
    have a download URL to a JSON file.

    - Python values that come out of [response.json()] are the inductive
      [json]; a dict is an association list in insertion order.
    - A Python [str] is a [string] whose characters are read as the code
      points U+0000 to U+00FF; [lower] and [strip] are Python's on that
      range.
    - A raised exception is a value [Raise e] of [result]; every
      [try ... except Exception] of the source is a [match] on it.
    - The [requests] session, the clock, [time.sleep] and [str] on
      values that are not strings are the variables of the section
      [Scraper]; the state of the outside world is threaded explicitly.
    - [print] calls, the session headers and the statistics printed at
      the end of [main] are left out: no property below reads them. *)

From Stdlib Require Import Ascii NArith.
From stdpp Require Import base option list strings gmap sorting.

(** ** Python strings *)

Module Str.

Definition code (c : ascii) : N := N_of_ascii c.

(** [str.lower] on one character: A-Z and the Latin-1 capitals
    U+00C0..U+00DE (without the multiplication sign U+00D7). *)
Definition lower_char (c : ascii) : ascii :=
  let n := code c in
  if ((65 <=? n) && (n <=? 90))%N
     || ((192 <=? n) && (n <=? 222) && negb (n =? 215))%N
  then ascii_of_N (n + 32) else c.

Fixpoint lower (s : string) : string :=
  match s with
  | EmptyString => EmptyString
  | String c s' => String (lower_char c) (lower s')
  end.

(** [s.startswith(p)] *)
Fixpoint startswith (s p : string) : bool :=
  match p, s with
  | EmptyString, _ => true
  | String _ _, EmptyString => false
  | String a p', String b s' => bool_decide (a = b) && startswith s' p'
  end.

(** [s.endswith(suffix)] *)
Definition endswith (s suffix : string) : bool :=
  startswith (String.rev s) (String.rev suffix).

(** [s.endswith((x, y, ...))]: a tuple of suffixes *)
Definition endswith_any (s : string) (suffixes : list string) : bool :=
  existsb (endswith s) suffixes.

(** [needle in s] *)
Fixpoint contains (s needle : string) : bool :=
  startswith s needle
  || match s with
     | EmptyString => false
     | String _ s' => contains s' needle
     end.

(** [str.isspace] on one character below U+0100 *)
Definition is_space (c : ascii) : bool :=
  let n := code c in
  ((9 <=? n) && (n <=? 13) || (28 <=? n) && (n <=? 32)
   || (n =? 133) || (n =? 160))%N.

Fixpoint lstrip (s : string) : string :=
  match s with
  | EmptyString => EmptyString
  | String c s' => if is_space c then lstrip s' else s
  end.

Definition rstrip (s : string) : string :=
  String.rev (lstrip (String.rev s)).

(** [s.strip()] *)
Definition strip (s : string) : string := rstrip (lstrip s).

Fixpoint chars (s : string) : list string :=
  match s with
  | EmptyString => []
  | String c s' => String c EmptyString :: chars s'
  end.

End Str.

(** ** Values and exceptions *)

(** What [json.loads] builds.  [JFloat] carries the IEEE-754 bits. *)
#[warnings="-register-all"]
Inductive json : Type :=
| JNull
| JBool (b : bool)
| JInt (z : Z)
| JFloat (bits : Z)
| JStr (s : string)
| JArr (items : list json)
| JObj (fields : list (string * json)).

(** The exceptions the code can meet; all derive from [Exception]. *)
Inductive exn : Type :=
| AttributeError
| TypeError
| KeyError
| IndexError
| ConnectionError
| ReadTimeout
| HTTPError
| JSONDecodeError.

Inductive result (A : Type) : Type :=
| Ok (a : A)
| Raise (e : exn).
Arguments Ok {A} a.
Arguments Raise {A} e.

#[global] Instance result_ret : MRet result := λ A a, Ok a.
#[global] Instance result_bind : MBind result := λ A B f m,
  match m with
  | Ok a => f a
  | Raise e => Raise e
  end.


(** ** Python operations on values *)

Module Py.

(** [d[key]] for a dict given by its items *)
Fixpoint assoc (key : string) (fields : list (string * json)) : option json :=
  match fields with
  | [] => None
  | (k, v) :: rest => if bool_decide (k = key) then Some v else assoc key rest
  end.

(** [v.get(key, default)]: only a dict has the method. *)
Definition get (v : json) (key : string) (dflt : json) : result json :=
  match v with
  | JObj fields => Ok (default dflt (assoc key fields))
  | _ => Raise AttributeError
  end.

(** [v[key]] with a string key *)
Definition getitem (v : json) (key : string) : result json :=
  match v with
  | JObj fields =>
      match assoc key fields with
      | Some x => Ok x
      | None => Raise KeyError
      end
  | _ => Raise TypeError
  end.

(** [v[0]] *)
Definition getitem0 (v : json) : result json :=
  match v with
  | JArr (x :: _) => Ok x
  | JArr [] => Raise IndexError
  | JStr s =>
      match s with
      | String c _ => Ok (JStr (String c EmptyString))
      | EmptyString => Raise IndexError
      end
  | JObj _ => Raise KeyError
  | _ => Raise TypeError
  end.

(** [for x in v]: the elements in order; a dict yields its keys. *)
Definition iter (v : json) : result (list json) :=
  match v with
  | JArr items => Ok items
  | JObj fields => Ok ((λ kv, JStr kv.1) <$> fields)
  | JStr s => Ok (JStr <$> Str.chars s)
  | _ => Raise TypeError
  end.

Definition isinstance_str (v : json) : bool :=
  match v with JStr _ => true | _ => false end.

(** [bool(v)] *)
Definition truthy (v : json) : bool :=
  match v with
  | JNull => false
  | JBool b => b
  | JInt z => negb (Z.eqb z 0)
  | JFloat bits => negb (Z.eqb (Z.land bits (2 ^ 63 - 1)) 0)
  | JStr s => negb (String.eqb s "")
  | JArr items => negb (Nat.eqb (length items) 0)
  | JObj fields => negb (Nat.eqb (length fields) 0)
  end.

(** [v.lower()]: only a [str] has the method. *)
Definition lower (v : json) : result string :=
  match v with
  | JStr s => Ok (Str.lower s)
  | _ => Raise AttributeError
  end.

End Py.

(** ** Records *)

(** The dict built by [get_item_details].  [tags] is [list(set(...))]:
    its order is whatever the hash order is, so it is kept as a set. *)
Record item_data : Type := ItemData {
  identifier : json;
  title : json;
  category : string;
  tags : gset string;
  download_url : option string;
  url : string
}.

(** The dict handed to [json.dump] by [save_to_json]. *)
Record catalog : Type := Catalog {
  total_items : nat;
  scraped_at : string;
  items : list item_data
}.

Definition set_download_url (item : item_data) (u : string) : item_data :=
  {| identifier := identifier item; title := title item;
     category := category item; tags := tags item;
     download_url := Some u; url := url item |}.

(** [bool(item_data['download_url'])]: [None] and [''] are false. *)
Definition truthy_url (u : option string) : bool :=
  match u with
  | None => false
  | Some s => negb (String.eqb s "")
  end.

(** [bool(item_data and item_data['download_url'])]; a record is a dict
    with six keys, hence true. *)
Definition keeps (item : option item_data) : bool :=
  match item with
  | None => false
  | Some it => truthy_url (download_url it)
  end.

(** ** A test double of the archive

    The properties below hold for every session, clock and [str]; the
    double is what they are run against on concrete inputs. *)

Module Mock.

(** What the process did to the outside world, oldest first. *)
Inductive event : Type :=
| Requested (url : string)
| Slept.

Definition world : Type := list event.

(** An HTTP answer: the status and the body, [None] when it is not JSON. *)
Record response : Type := Response {
  status_code : Z;
  body : option json
}.

(** What a request to a URL meets: an answer or a transport error. *)
Definition server : Type := string → result response.

Definition session_get (srv : server) (url : string) (params : option json)
  (timeout : Z) (w : world) : result response * world :=
  (srv url, w ++ [Requested url]).

Definition raise_for_status (r : response) : result unit :=
  if (400 <=? status_code r)%Z && (status_code r <? 600)%Z
  then Raise HTTPError else Ok ().

Definition response_json (r : response) : result json :=
  match body r with
  | Some v => Ok v
  | None => Raise JSONDecodeError
  end.

Definition time_sleep (w : world) : world := w ++ [Slept].

Definition strftime_gmtime (w : world) : string := "2024-01-01 00:00:00 UTC".

(** Stands in for [str] on values that are not strings; the examples
    only ever format strings. *)
Definition repr (v : json) : string := "<object>".

Definition ok_json (v : json) : result response :=
  Ok {| status_code := 200; body := Some v |}.

(** Metadata with the given subject, keywords and file names. *)
Definition metadata_of (subject keywords : json) (names : list string) : json :=
  JObj [("metadata", JObj [("title", JStr "A title");
                           ("subject", subject);
                           ("keywords", keywords)]);
        ("files", JArr ((λ n, JObj [("name", JStr n)]) <$> names))].

Definition search_of (docs : list json) : json :=
  JObj [("response", JObj [("docs", JArr docs)])].

Definition doc (ident : string) : json :=
  JObj [("identifier", JStr ident); ("title", JStr "A title")].

Definition metadata_a : json :=
  metadata_of (JArr [JStr "retro games"; JStr "Emulators"]) (JArr [])
              ["a.RAR"; "readme.txt"; "a.ZIP"; "b.zip"].

Definition metadata_c : json :=
  metadata_of (JStr "") (JStr "homebrew") ["notes.txt"; "EBOOT.PBP"; "c.7z"].

Definition search_url : string := "https://archive.org/advancedsearch.php".
Definition metadata_url (ident : string) : string :=
  "https://archive.org/metadata/" +:+ ident.

(** Three items: [a] has a zip behind a rar, the request for [b] times
    out, [c] has a pbp before a 7z. *)
Definition three_items : server := λ url,
  if bool_decide (url = search_url) then
    ok_json (search_of [doc "a"; doc "b"; doc "c"])
  else if bool_decide (url = metadata_url "a") then
    ok_json metadata_a
  else if bool_decide (url = metadata_url "b") then
    Raise ReadTimeout
  else if bool_decide (url = metadata_url "c") then
    ok_json metadata_c
  else Ok {| status_code := 404; body := None |}.

(** Two items: [a] has a zip, [b] has only a text file. *)
Definition two_items : server := λ url,
  if bool_decide (url = search_url) then
    ok_json (search_of [doc "a"; doc "b"])
  else if bool_decide (url = metadata_url "a") then
    ok_json (metadata_of (JArr []) (JArr []) ["a.zip"])
  else if bool_decide (url = metadata_url "b") then
    ok_json (metadata_of (JArr []) (JArr []) ["b.txt"])
  else Ok {| status_code := 404; body := None |}.

(** The search answers with a server error. *)
Definition search_down : server := λ url,
  if bool_decide (url = search_url) then Ok {| status_code := 503; body := None |}
  else ok_json (metadata_of (JArr []) (JArr []) ["a.zip"]).

(** The second of three documents has no identifier. *)
Definition one_bad_doc : server := λ url,
  if bool_decide (url = search_url) then
    ok_json (search_of [doc "a"; JObj [("title", JStr "untitled")]; doc "c"])
  else ok_json (metadata_of (JArr []) (JArr []) ["a.zip"]).

End Mock.

(** ** More answers for the test double *)

Module Cases.

(** One item, [a], whose metadata answer is the given value. *)
Definition one_item (metadata : json) : Mock.server := λ url,
  if bool_decide (url = Mock.search_url) then
    Mock.ok_json (Mock.search_of [Mock.doc "a"])
  else Mock.ok_json metadata.

(** A search that answers with the given value. *)
Definition search_answers (data : json) : Mock.server := λ url,
  if bool_decide (url = Mock.search_url) then Mock.ok_json data
  else Ok {| Mock.status_code := 404; Mock.body := None |}.

Definition fields_of (subject : json) (files : list json)
  : list (string * json) :=
  [("metadata", JObj [("title", JStr "A title"); ("subject", subject)]);
   ("files", JArr files)].

Definition named (name : string) : json := JObj [("name", JStr name)].

(** A zip in second place, followed by entries that are no objects. *)
Definition zip_then_junk : list (string * json) :=
  fields_of (JStr "Games") [named "readme.txt"; named "game.ZIP"; JNull; JInt 3].

(** A file whose name is null, before the zip. *)
Definition null_name_first : list (string * json) :=
  fields_of (JStr "Games")
            [named "readme.txt"; JObj [("name", JNull)]; named "game.zip"].

(** A null subject next to a zip. *)
Definition null_subject : list (string * json) :=
  fields_of JNull [named "game.zip"].

End Cases.

(** ** The scraper *)

Section Scraper.

(** The state of everything outside the process (servers, clock). *)
Context {World : Type}.
(** [requests.Response] *)
Context {Response : Type}.

(** [self.session.get(url, params=..., timeout=...)] *)
Variable session_get :
  string → option json → Z → World → result Response * World.
(** [response.raise_for_status()] *)
Variable raise_for_status : Response → result unit.
(** [response.json()] *)
Variable response_json : Response → result json.
(** [time.sleep(0.5)] *)
Variable time_sleep : World → World.
(** [time.strftime('%Y-%m-%d %H:%M:%S UTC', time.gmtime())] *)
Variable strftime_gmtime : World → string.
(** [str(v)] for a value that is not a [str] *)
Variable py_repr : json → string.

(** [str(v)], also what an f-string does with [{v}] *)
Definition py_str (v : json) : string :=
  match v with
  | JStr s => s
  | _ => py_repr v
  end.

Definition base_url : string := "https://archive.org".
Definition collection_url : string :=
  "https://archive.org/details/psp-homebrew-library".

Definition api_url : string := "https://archive.org/advancedsearch.php".
Definition params : json :=
  JObj [("q", JStr "collection:psp-homebrew-library");
        ("fl[]", JArr [JStr "identifier"; JStr "title"]);
        ("rows", JInt 10000);
        ("page", JInt 1);
        ("output", JStr "json")].

(** [[item['identifier'] for item in items]] *)
Fixpoint identifiers_of (docs : list json) : result (list json) :=
  match docs with
  | [] => Ok []
  | item :: rest =>
      ident ← Py.getitem item "identifier";
      idents ← identifiers_of rest;
      Ok (ident :: idents)
  end.

Definition get_collection_items (w : World) : list json * World :=
  let '(got, w') := session_get api_url (Some params) 30 w in
  let body : result (list json) :=
    response ← got;
    _ ← raise_for_status response;
    data ← response_json response;
    resp ← Py.get data "response" (JObj []);
    items ← Py.get resp "docs" (JArr []);
    docs ← Py.iter items;
    identifiers_of docs in
  match body with
  | Ok identifiers => (identifiers, w')
  | Raise _ => ([], w')
  end.

Definition categories : list string :=
  ["Games"; "Emulators"; "Applications"; "Utilities";
   "Media"; "Demos"; "Plugins"; "Themes"].

(** [cat.lower() in str(subj).lower()] *)
Definition cat_in (cat : string) (subj : json) : bool :=
  Str.contains (Str.lower (py_str subj)) (Str.lower cat).

(** The nested loops of [extract_category]: [Some cat] is the
    [return cat] inside them, [None] is falling through. *)
Fixpoint scan_categories (cats : list string) (subject : json)
  : result (option string) :=
  match cats with
  | [] => Ok None
  | cat :: cats' =>
      subjs ← Py.iter subject;
      if existsb (cat_in cat) subjs then Ok (Some cat)
      else scan_categories cats' subject
  end.

Definition extract_category (metadata : json) : result string :=
  meta ← Py.get metadata "metadata" (JObj []);
  subject ← Py.get meta "subject" (JArr []);
  let subject :=
    if Py.isinstance_str subject then JArr [subject] else subject in
  found ← scan_categories categories subject;
  match found with
  | Some cat => Ok cat
  | None =>
      if Py.truthy subject then
        first ← Py.getitem0 subject;
        Ok (py_str first)
      else Ok "Unknown"
  end.

Definition extract_tags (metadata : json) : result (gset string) :=
  meta ← Py.get metadata "metadata" (JObj []);
  let tags : list string := [] in
  subject ← Py.get meta "subject" (JArr []);
  let subject :=
    if Py.isinstance_str subject then JArr [subject] else subject in
  subjs ← Py.iter subject;
  let tags := tags ++ (py_str <$> subjs) in
  keywords ← Py.get meta "keywords" (JArr []);
  let keywords :=
    if Py.isinstance_str keywords then JArr [keywords] else keywords in
  kws ← Py.iter keywords;
  let tags := tags ++ (py_str <$> kws) in
  Ok (list_to_set (Str.strip <$> filter (λ tag, tag ≠ "") tags)).

(** One [for file in files] loop of [get_item_details]: the name of
    the first file that passes the suffix test ([break]), if any. *)
Fixpoint scan_files (suffixes : list string) (files : list json)
  : result (option json) :=
  match files with
  | [] => Ok None
  | file :: rest =>
      filename ← Py.get file "name" (JStr "");
      low ← Py.lower filename;
      if Str.endswith_any low suffixes then Ok (Some filename)
      else scan_files suffixes rest
  end.

Definition download_link (identifier filename : json) : string :=
  base_url +:+ "/download/" +:+ py_str identifier +:+ "/" +:+ py_str filename.

(** The body of the [try] of [get_item_details] from the parsed
    metadata on: the record and the choice of its download URL. *)
Definition item_of (identifier metadata : json) : result item_data :=
  let item_url := base_url +:+ "/details/" +:+ py_str identifier in
  meta ← Py.get metadata "metadata" (JObj []);
  title ← Py.get meta "title" (JStr "");
  category ← extract_category metadata;
  tags ← extract_tags metadata;
  let item_data :=
    {| identifier := identifier; title := title; category := category;
       tags := tags; download_url := None; url := item_url |} in
  files ← Py.get metadata "files" (JArr []);
  file_list ← Py.iter files;
  zip ← scan_files [".zip"] file_list;
  let item_data :=
    match zip with
    | Some filename =>
        set_download_url item_data (download_link identifier filename)
    | None => item_data
    end in
  if negb (truthy_url (download_url item_data)) then
    file_list ← Py.iter files;
    other ← scan_files [".rar"; ".7z"; ".pbp"] file_list;
    match other with
    | Some filename =>
        Ok (set_download_url item_data (download_link identifier filename))
    | None => Ok item_data
    end
  else Ok item_data.

Definition metadata_url (identifier : json) : string :=
  base_url +:+ "/metadata/" +:+ py_str identifier.

Definition get_item_details (identifier : json) (w : World)
  : option item_data * World :=
  let '(got, w') := session_get (metadata_url identifier) None 30 w in
  let body : result item_data :=
    metadata_response ← got;
    _ ← raise_for_status metadata_response;
    metadata ← response_json metadata_response;
    item_of identifier metadata in
  match body with
  | Ok item_data => (Some item_data, w')
  | Raise _ => (None, w')
  end.

(** The loop of [scrape_all]; [results] is the list being appended to. *)
Fixpoint scrape_loop (identifiers : list json) (results : list item_data)
  (w : World) : list item_data * World :=
  match identifiers with
  | [] => (results, w)
  | identifier :: rest =>
      let '(item_data, w1) := get_item_details identifier w in
      let results :=
        if keeps item_data then results ++ option_list item_data
        else results in
      scrape_loop rest results (time_sleep w1)
  end.

Definition scrape_all (w : World) : list item_data * World :=
  let '(identifiers, w1) := get_collection_items w in
  scrape_loop identifiers [] w1.

Definition default_filename : string := "psp_homebrew_library.json".

(** The files written so far, each with the document dumped into it.
    A file is known by the name it was opened under, and [open] is taken
    to succeed. *)
Definition save_to_json (data : list item_data) (filename : string)
  (fs : gmap string catalog) (w : World) : gmap string catalog :=
  <[filename :=
      {| total_items := length data;
         scraped_at := strftime_gmtime w;
         items := data |}]> fs.

Definition main (fs : gmap string catalog) (w : World)
  : gmap string catalog * World :=
  let '(results, w1) := scrape_all w in
  (save_to_json results default_filename fs w1, w1).

(** ** The input shapes the properties are stated for

    The metadata API answers with an object that has a [metadata]
    sub-object, whose [subject] and [keywords] are each a single
    string or a list, and a [files] list of objects with a [name]. *)

(** The field [key] of the [metadata] sub-object, if it is there. *)
Definition meta_field (metadata : json) (key : string)
  : option (option json) :=
  match metadata with
  | JObj fields =>
      match Py.assoc "metadata" fields with
      | None => Some None
      | Some (JObj meta) => Some (Py.assoc key meta)
      | Some _ => None
      end
  | _ => None
  end.

(** A string-or-list field as a list of strings: a single string is a
    one-element list, a missing field is the empty list. *)
Definition string_list (field : option json) : option (list string) :=
  match field with
  | None => Some []
  | Some (JStr s) => Some [s]
  | Some (JArr l) => Some (py_str <$> l)
  | Some _ => None
  end.

Definition subjects_of (metadata : json) : option (list string) :=
  meta_field metadata "subject" ≫= string_list.

Definition keywords_of (metadata : json) : option (list string) :=
  meta_field metadata "keywords" ≫= string_list.

(** The name of a file object; a missing name reads as the empty one. *)
Definition file_name (file : json) : option string :=
  match file with
  | JObj fields =>
      match Py.assoc "name" fields with
      | None => Some ""
      | Some (JStr s) => Some s
      | Some _ => None
      end
  | _ => None
  end.

(** The names of the [files] list, in the order of the list. *)
Definition file_names (metadata : json) : option (list string) :=
  match metadata with
  | JObj fields =>
      match Py.assoc "files" fields with
      | None => Some []
      | Some (JArr files) => mapM file_name files
      | Some _ => None
      end
  | _ => None
  end.

(** What a request ends in: the parsed document, or the error raised by
    the transport (network, timeout), by the status check or by the
    parser. *)
Definition answer (url : string) (query : option json) (w : World)
  : result json * World :=
  let '(got, w') := session_get url query 30 w in
  (response ← got; _ ← raise_for_status response; response_json response, w').

(** The documents of a search answer. *)
Definition docs_of (data : json) : option (list json) :=
  match data with
  | JObj fields =>
      match Py.assoc "response" fields with
      | None => Some []
      | Some (JObj resp) =>
          match Py.assoc "docs" resp with
          | None => Some []
          | Some (JArr docs) => Some docs
          | Some _ => None
          end
      | Some _ => None
      end
  | _ => None
  end.

(** A document that is an object without an [identifier] field. *)
Definition lacks_identifier (doc : json) : bool :=
  match doc with
  | JObj fields => bool_decide (Py.assoc "identifier" fields = None)
  | _ => false
  end.

(** ** What the specification says, as functions *)

(** A keyword occurs in a subject, case-insensitively. *)
Definition mentions (subj cat : string) : bool :=
  Str.contains (Str.lower subj) (Str.lower cat).

(** The first keyword, in priority order, that some subject mentions;
    else the first subject; else ["Unknown"]. *)
Definition category_spec (subjects : list string) : string :=
  match find (λ cat, existsb (λ subj, mentions subj cat) subjects) categories with
  | Some cat => cat
  | None =>
      match subjects with
      | subj :: _ => subj
      | [] => "Unknown"
      end
  end.

Definition is_zip (name : string) : bool :=
  Str.endswith (Str.lower name) ".zip".

Definition is_other_archive (name : string) : bool :=
  Str.endswith (Str.lower name) ".rar"
  || Str.endswith (Str.lower name) ".7z"
  || Str.endswith (Str.lower name) ".pbp".

(** The link to a file of an item. *)
Definition link_to (identifier : json) (name : string) : string :=
  base_url +:+ "/download/" +:+ py_str identifier +:+ "/" +:+ name.

(** The tags: the stripped subjects and keywords that are not empty
    before stripping, as a set. *)
Definition tags_of (subjects keywords : list string) : gset string :=
  list_to_set (Str.strip <$> filter (λ raw, raw ≠ "") (subjects ++ keywords)).

(** The per-identifier fetch results, in enumeration order. *)
Fixpoint fetch_each (identifiers : list json) (w : World)
  : list (option item_data) * World :=
  match identifiers with
  | [] => ([], w)
  | identifier :: rest =>
      let '(item, w1) := get_item_details identifier w in
      let '(others, w2) := fetch_each rest (time_sleep w1) in
      (item :: others, w2)
  end.

(** The fetched records that have a download URL. *)
Definition with_download_url (fetched : list (option item_data))
  : list item_data :=
  filter (λ it, download_url it ≠ None) (omap id fetched).

(** ** The statistics of [main] and further notions *)

(** [d.get(key, 0)] on a dict of counts given by its items *)
Fixpoint counts_get (key : string) (d : list (string * nat)) : nat :=
  match d with
  | [] => 0
  | (k, n) :: rest => if bool_decide (k = key) then n else counts_get key rest
  end.

(** [d[key] = n]: in place when the key is there, else a new last item *)
Fixpoint counts_set (key : string) (n : nat) (d : list (string * nat))
  : list (string * nat) :=
  match d with
  | [] => [(key, n)]
  | (k, m) :: rest =>
      if bool_decide (k = key) then (k, n) :: rest
      else (k, m) :: counts_set key n rest
  end.

(** The dict [categories] at the end of the counting loop of [main]. *)
Definition category_counts (results : list item_data) : list (string * nat) :=
  foldl (λ categories item,
           let cat := category item in
           counts_set cat (counts_get cat categories + 1) categories)
        [] results.

(** One step of a stable sort by decreasing count. *)
Fixpoint insert_by_count (x : string * nat) (sorted : list (string * nat))
  : list (string * nat) :=
  match sorted with
  | [] => [x]
  | y :: rest =>
      if y.2 <=? x.2 then x :: y :: rest else y :: insert_by_count x rest
  end.

(** [sorted(d.items(), key=lambda x: x[1], reverse=True)] *)
Definition sorted_by_count (d : list (string * nat)) : list (string * nat) :=
  foldr insert_by_count [] d.

(** The pairs the last loop of [main] prints, in its order. *)
Definition statistics (results : list item_data) : list (string * nat) :=
  sorted_by_count (category_counts results).

(** How many records have the category. *)
Definition occurrences (cat : string) (results : list item_data) : nat :=
  length (filter (λ item, category item = cat) results).

(** A value a [for] loop cannot run over: [None], a bool or a number. *)
Definition not_iterable (v : json) : bool :=
  match v with
  | JNull | JBool _ | JInt _ | JFloat _ => true
  | JStr _ | JArr _ | JObj _ => false
  end.

(** What one turn of the loop of [scrape_all] does to the outside
    world: one request for the metadata, then the pause. *)
Definition request_and_pause (w : World) (ident : json) : World :=
  time_sleep (session_get (metadata_url ident) None 30 w).2.

(** ** Reading the fields of a well-shaped answer *)

Lemma bind_Ok {A B} (a : A) (f : A → result B) : Ok a ≫= f = f a.
Proof. reflexivity. Qed.

Lemma bind_Raise {A B} (e : exn) (f : A → result B) :
  Raise e ≫= f = Raise e.
Proof. reflexivity. Qed.

Lemma get_fields fields key dflt :
  Py.get (JObj fields) key dflt = Ok (default dflt (Py.assoc key fields)).
Proof. reflexivity. Qed.

Lemma iter_list l : Py.iter (JArr l) = Ok l.
Proof. reflexivity. Qed.

(** Runs the statements that cannot raise. *)
Ltac run :=
  repeat first
    [ rewrite get_fields | rewrite iter_list | rewrite bind_Ok
    | progress cbv zeta ].

Lemma meta_field_get metadata key field :
  meta_field metadata key = Some field →
  ∃ meta, Py.get metadata "metadata" (JObj []) = Ok (JObj meta)
          ∧ Py.assoc key meta = field.
Proof.
  unfold meta_field. destruct metadata as [| | | | | |fields]; try discriminate.
  simpl. destruct (Py.assoc "metadata" fields) as [[| | | | | |meta]|] eqn:E;
    try discriminate; intros [= <-]; simpl; eauto.
Qed.

Lemma string_list_normalized field strings :
  string_list field = Some strings →
  ∃ l, (let v := default (JArr []) field in
        if Py.isinstance_str v then JArr [v] else v) = JArr l
       ∧ py_str <$> l = strings.
Proof.
  destruct field as [[| | | |s|l|]|]; simpl; try discriminate;
    intros [= <-]; eauto.
Qed.

(** ** Category extraction *)

Lemma existsb_cat_in cat l :
  existsb (cat_in cat) l = existsb (λ subj, mentions subj cat) (py_str <$> l).
Proof. induction l as [|x l IH]; simpl; [done|]. by rewrite IH. Qed.

Lemma scan_categories_list cats l :
  scan_categories cats (JArr l)
  = Ok (find (λ cat, existsb (λ subj, mentions subj cat) (py_str <$> l)) cats).
Proof.
  induction cats as [|cat cats IH]; simpl; [done|].
  rewrite existsb_cat_in.
  destruct (existsb _ (py_str <$> l)); [done|apply IH].
Qed.

Lemma extract_category_shaped metadata subjects :
  subjects_of metadata = Some subjects →
  extract_category metadata = Ok (category_spec subjects).
Proof.
  unfold subjects_of. intros H.
  destruct (meta_field metadata "subject") as [field|] eqn:Hf; [|done].
  simpl in H.
  destruct (meta_field_get _ _ _ Hf) as (meta & Hmeta & Hsub).
  destruct (string_list_normalized _ _ H) as (l & Hl & Hstr).
  unfold extract_category.
  rewrite Hmeta, bind_Ok, get_fields, bind_Ok, Hsub. cbv zeta in *.
  rewrite Hl, scan_categories_list, bind_Ok, Hstr.
  unfold category_spec.
  destruct (find _ categories); [done|].
  subst subjects. destruct l; done.
Qed.

(** ** Tag extraction *)

Lemma extract_tags_shaped metadata subjects keywords :
  subjects_of metadata = Some subjects →
  keywords_of metadata = Some keywords →
  extract_tags metadata = Ok (tags_of subjects keywords).
Proof.
  unfold subjects_of, keywords_of. intros Hs Hk.
  destruct (meta_field metadata "subject") as [fs|] eqn:Hfs; [|done].
  destruct (meta_field metadata "keywords") as [fk|] eqn:Hfk; [|done].
  simpl in Hs, Hk.
  destruct (meta_field_get _ _ _ Hfs) as (meta & Hmeta & Hsub).
  destruct (meta_field_get _ _ _ Hfk) as (meta' & Hmeta' & Hkw).
  rewrite Hmeta in Hmeta'. injection Hmeta' as <-.
  destruct (string_list_normalized _ _ Hs) as (ls & Hls & <-).
  destruct (string_list_normalized _ _ Hk) as (lk & Hlk & <-).
  unfold extract_tags. cbv zeta in Hls, Hlk.
  rewrite Hmeta. run. rewrite Hsub, Hls. run. rewrite Hkw, Hlk. run.
  reflexivity.
Qed.

(** ** The choice of the download URL *)

Lemma file_names_get metadata names :
  file_names metadata = Some names →
  ∃ files, Py.get metadata "files" (JArr []) = Ok (JArr files)
           ∧ mapM file_name files = Some names.
Proof.
  unfold file_names. destruct metadata as [| | | | | |fields]; try discriminate.
  rewrite get_fields.
  destruct (Py.assoc "files" fields) as [[| | | | |files|]|]; try discriminate.
  - intros H. exists files. done.
  - intros [= <-]. exists []. done.
Qed.

Lemma file_name_get file name :
  file_name file = Some name →
  Py.get file "name" (JStr "") = Ok (JStr name).
Proof.
  unfold file_name. destruct file as [| | | | | |fields]; try discriminate.
  rewrite get_fields.
  destruct (Py.assoc "name" fields) as [[| | | |s| |]|]; try discriminate;
    by intros [= <-].
Qed.

Lemma scan_files_names suffixes files names :
  mapM file_name files = Some names →
  scan_files suffixes files
  = Ok (JStr <$> find (λ n, Str.endswith_any (Str.lower n) suffixes) names).
Proof.
  rewrite mapM_Some. induction 1 as [|file name files names Hname _ IH];
    simpl; [done|].
  rewrite (file_name_get _ _ Hname), bind_Ok. cbn [Py.lower]. rewrite bind_Ok.
  destruct (Str.endswith_any (Str.lower name) suffixes); [done|apply IH].
Qed.

Lemma is_zip_suffix name :
  Str.endswith_any (Str.lower name) [".zip"] = is_zip name.
Proof. unfold Str.endswith_any, is_zip. simpl. apply orb_false_r. Qed.

Lemma is_other_archive_suffix name :
  Str.endswith_any (Str.lower name) [".rar"; ".7z"; ".pbp"]
  = is_other_archive name.
Proof.
  unfold Str.endswith_any, is_other_archive. simpl.
  rewrite orb_false_r. apply orb_assoc.
Qed.

Lemma find_ext {A} (f g : A → bool) (l : list A) :
  (∀ x, f x = g x) → find f l = find g l.
Proof.
  intros Hfg. induction l as [|x l IH]; simpl; [done|].
  rewrite Hfg, IH. done.
Qed.

Lemma truthy_link identifier filename :
  truthy_url (Some (download_link identifier filename)) = true.
Proof. reflexivity. Qed.

(** The URL the two scans choose among the names. *)
Lemma item_of_files identifier metadata names :
  file_names metadata = Some names →
  ∀ item, item_of identifier metadata = Ok item →
  download_url item
  = match find is_zip names with
    | Some name => Some (link_to identifier name)
    | None => link_to identifier <$> find is_other_archive names
    end.
Proof.
  intros Hnames item. unfold item_of.
  destruct (file_names_get _ _ Hnames) as (files & Hfiles & Hmap).
  destruct (Py.get metadata "metadata" (JObj [])) as [meta|]; [|done].
  rewrite bind_Ok.
  destruct (Py.get meta "title" (JStr "")) as [ttl|]; [|done].
  rewrite bind_Ok.
  destruct (extract_category metadata) as [cat|]; [|done].
  rewrite bind_Ok.
  destruct (extract_tags metadata) as [tgs|]; [|done].
  rewrite bind_Ok, Hfiles. run.
  rewrite (scan_files_names _ _ _ Hmap), (find_ext _ _ _ is_zip_suffix).
  destruct (find is_zip names) as [zip|]; cbn [fmap option_fmap option_map];
    run.
  - cbn [download_url set_download_url]. rewrite truthy_link.
    cbn [negb]. by intros [= <-].
  - cbn [download_url truthy_url negb]. run.
    rewrite (scan_files_names _ _ _ Hmap),
      (find_ext _ _ _ is_other_archive_suffix).
    destruct (find is_other_archive names);
      cbn [fmap option_fmap option_map]; by intros [= <-].
Qed.

Lemma item_of_shaped ident metadata subjects keywords names :
  subjects_of metadata = Some subjects →
  keywords_of metadata = Some keywords →
  file_names metadata = Some names →
  ∃ item, item_of ident metadata = Ok item
          ∧ identifier item = ident
          ∧ category item = category_spec subjects
          ∧ tags item = tags_of subjects keywords.
Proof.
  intros Hs Hk Hnames. unfold item_of.
  destruct (file_names_get _ _ Hnames) as (files & Hfiles & Hmap).
  pose proof Hs as Hs'. unfold subjects_of in Hs'.
  destruct (meta_field metadata "subject") as [fs|] eqn:Hfs; [|done].
  destruct (meta_field_get _ _ _ Hfs) as (meta & Hmeta & _).
  rewrite Hmeta, bind_Ok, get_fields, bind_Ok.
  rewrite (extract_category_shaped _ _ Hs), bind_Ok.
  rewrite (extract_tags_shaped _ _ _ Hs Hk), bind_Ok.
  rewrite Hfiles. run. rewrite (scan_files_names _ _ _ Hmap).
  destruct (find _ names) as [zip|]; cbn [fmap option_fmap option_map]; run.
  - cbn [download_url set_download_url]. rewrite truthy_link.
    cbn [negb]. eauto.
  - cbn [download_url truthy_url negb]. run.
    rewrite (scan_files_names _ _ _ Hmap).
    destruct (find _ names); cbn [fmap option_fmap option_map]; eauto.
Qed.

(** Every URL the record can carry is a link, hence not empty. *)
Lemma item_of_url ident metadata item :
  item_of ident metadata = Ok item →
  download_url item = None ∨ truthy_url (download_url item) = true.
Proof.
  unfold item_of.
  destruct (Py.get metadata "metadata" (JObj [])) as [meta|]; [|done].
  rewrite bind_Ok.
  destruct (Py.get meta "title" (JStr "")) as [ttl|]; [|done].
  rewrite bind_Ok.
  destruct (extract_category metadata) as [cat|]; [|done].
  rewrite bind_Ok.
  destruct (extract_tags metadata) as [tgs|]; [|done].
  rewrite bind_Ok. cbv zeta.
  destruct (Py.get metadata "files" (JArr [])) as [files|]; [|done].
  rewrite bind_Ok.
  destruct (Py.iter files) as [file_list|]; [|done].
  rewrite !bind_Ok.
  destruct (scan_files [".zip"] file_list) as [[zip|]|]; [..|done];
    rewrite bind_Ok.
  - cbn [download_url set_download_url]. rewrite truthy_link. cbn [negb].
    intros [= <-]. right. apply truthy_link.
  - cbn [download_url truthy_url negb]. rewrite bind_Ok.
    destruct (scan_files [".rar"; ".7z"; ".pbp"] file_list) as [[other|]|];
      [..|done]; rewrite bind_Ok; intros [= <-].
    + right. apply truthy_link.
    + by left.
Qed.

(** ** Requests *)

Lemma get_item_details_answer ident w :
  get_item_details ident w
  = (match (answer (metadata_url ident) None w).1 ≫= item_of ident with
     | Ok item => Some item
     | Raise _ => None
     end, (answer (metadata_url ident) None w).2).
Proof.
  unfold get_item_details, answer.
  destruct (session_get (metadata_url ident) None 30 w) as [[resp|e] w'];
    [|done].
  rewrite !bind_Ok. cbn [fst snd].
  destruct (raise_for_status resp) as [[]|e]; [|done].
  rewrite !bind_Ok. destruct (response_json resp) as [metadata|]; [|done].
  rewrite !bind_Ok. by destruct (item_of ident metadata).
Qed.

Lemma get_item_details_failed ident w e :
  (answer (metadata_url ident) None w).1 = Raise e →
  get_item_details ident w = (None, (answer (metadata_url ident) None w).2).
Proof. intros H. by rewrite get_item_details_answer, H. Qed.

Lemma get_item_details_url ident w item :
  (get_item_details ident w).1 = Some item →
  download_url item = None ∨ truthy_url (download_url item) = true.
Proof.
  rewrite get_item_details_answer. cbn [fst].
  destruct (answer (metadata_url ident) None w).1 as [metadata|]; [|done].
  rewrite bind_Ok.
  destruct (item_of ident metadata) as [it|] eqn:Hit; [|done].
  intros [= <-]. by eapply item_of_url.
Qed.

Lemma get_collection_items_failed w e :
  (answer api_url (Some params) w).1 = Raise e →
  get_collection_items w = ([], (answer api_url (Some params) w).2).
Proof.
  unfold get_collection_items, answer.
  destruct (session_get api_url (Some params) 30 w) as [[resp|e'] w'];
    [|done].
  rewrite !bind_Ok. cbn [fst snd].
  destruct (raise_for_status resp) as [[]|e']; [|done].
  rewrite !bind_Ok. destruct (response_json resp); [discriminate|done].
Qed.

Lemma get_collection_items_docs w data docs :
  (answer api_url (Some params) w).1 = Ok data →
  docs_of data = Some docs →
  get_collection_items w
  = (match identifiers_of docs with
     | Ok identifiers => identifiers
     | Raise _ => []
     end, (answer api_url (Some params) w).2).
Proof.
  unfold get_collection_items, answer.
  destruct (session_get api_url (Some params) 30 w) as [[resp|e'] w'];
    [|done].
  rewrite !bind_Ok. cbn [fst snd].
  destruct (raise_for_status resp) as [[]|e']; [|done].
  rewrite !bind_Ok. destruct (response_json resp) as [data'|]; [|done].
  intros [= ->]. rewrite bind_Ok.
  unfold docs_of. destruct data as [| | | | | |fields]; try discriminate.
  run. destruct (Py.assoc "response" fields) as [[| | | | | |resp']|];
    try discriminate; cbn [default from_option id]; run.
  - destruct (Py.assoc "docs" resp') as [[| | | | |items|]|];
      try discriminate; intros [= <-]; cbn [default from_option id]; run;
      by destruct (identifiers_of _).
  - intros [= <-]. cbn [Py.assoc default from_option id]. run. done.
Qed.

Lemma identifiers_of_lacking docs doc :
  doc ∈ docs → lacks_identifier doc = true →
  ∃ e, identifiers_of docs = Raise e.
Proof.
  intros Hin Hlack. induction Hin as [doc docs|doc doc' docs _ IH]; simpl.
  - destruct doc as [| | | | | |fields]; try discriminate.
    simpl in Hlack. apply bool_decide_eq_true in Hlack.
    unfold Py.getitem. rewrite Hlack. eauto.
  - destruct (Py.getitem doc' "identifier"); [|eauto].
    rewrite bind_Ok. destruct (IH Hlack) as [e ->]. eauto.
Qed.

(** ** The loop of [scrape_all] *)

Lemma fetch_each_app before after w :
  fetch_each (before ++ after) w
  = ((fetch_each before w).1 ++ (fetch_each after (fetch_each before w).2).1,
     (fetch_each after (fetch_each before w).2).2).
Proof.
  revert w. induction before as [|ident before IH]; intros w; simpl.
  - by destruct (fetch_each after w).
  - destruct (get_item_details ident w) as [item w1].
    rewrite IH. destruct (fetch_each before (time_sleep w1)) as [r1 w2].
    cbn [fst snd]. by destruct (fetch_each after w2).
Qed.

Lemma with_download_url_app l1 l2 :
  with_download_url (l1 ++ l2) = with_download_url l1 ++ with_download_url l2.
Proof. unfold with_download_url. by rewrite omap_app, filter_app. Qed.

Lemma with_download_url_linked fetched :
  Forall (λ it, download_url it ≠ None) (with_download_url fetched).
Proof.
  apply Forall_forall. intros it Hit.
  by apply list_elem_of_filter in Hit as [? _].
Qed.

Lemma scrape_loop_fetch identifiers results w :
  scrape_loop identifiers results w
  = (results ++ with_download_url (fetch_each identifiers w).1,
     (fetch_each identifiers w).2).
Proof.
  revert results w.
  induction identifiers as [|ident identifiers IH]; intros results w; simpl.
  - by rewrite app_nil_r.
  - pose proof (get_item_details_url ident w) as Hurl.
    destruct (get_item_details ident w) as [item w1]. cbn [fst] in Hurl.
    rewrite IH. destruct (fetch_each identifiers (time_sleep w1)) as [rs w2].
    cbn [fst snd]. f_equal.
    change (item :: rs) with ([item] ++ rs).
    rewrite with_download_url_app, app_assoc. f_equal.
    unfold with_download_url. destruct item as [it|]; simpl.
    + destruct (Hurl it eq_refl) as [Hnone|Htrue].
      * rewrite Hnone. simpl. rewrite filter_cons_False; [|by rewrite Hnone; auto].
        by rewrite app_nil_r.
      * rewrite Htrue. rewrite filter_cons_True; [done|].
        intros Hnone. by rewrite Hnone in Htrue.
    + by rewrite app_nil_r.
Qed.

Lemma scrape_all_fetch w :
  scrape_all w
  = (with_download_url
       (fetch_each (get_collection_items w).1 (get_collection_items w).2).1,
     (fetch_each (get_collection_items w).1 (get_collection_items w).2).2).
Proof.
  unfold scrape_all. destruct (get_collection_items w) as [identifiers w1].
  by rewrite scrape_loop_fetch.
Qed.

Lemma find_first {A} (f : A → bool) (before after : list A) (x : A) :
  Forall (λ y, f y = false) before → f x = true →
  find f (before ++ x :: after) = Some x.
Proof.
  intros Hbefore Hx. induction Hbefore as [|y before Hy _ IH]; simpl.
  - by rewrite Hx.
  - by rewrite Hy.
Qed.

Lemma find_none {A} (f : A → bool) (l : list A) :
  Forall (λ y, f y = false) l → find f l = None.
Proof.
  intros Hl. induction Hl as [|y l Hy _ IH]; simpl; [done|]. by rewrite Hy.
Qed.

Lemma get_item_details_shaped ident w metadata subjects keywords names :
  (answer (metadata_url ident) None w).1 = Ok metadata →
  subjects_of metadata = Some subjects →
  keywords_of metadata = Some keywords →
  file_names metadata = Some names →
  ∃ item, (get_item_details ident w).1 = Some item
          ∧ download_url item
            = match find is_zip names with
              | Some name => Some (link_to ident name)
              | None => link_to ident <$> find is_other_archive names
              end.
Proof.
  intros Hanswer Hs Hk Hnames.
  destruct (item_of_shaped ident _ _ _ _ Hs Hk Hnames) as (item & Hitem & _).
  exists item. rewrite get_item_details_answer, Hanswer, bind_Ok, Hitem.
  split; [done|]. by eapply item_of_files.
Qed.

(** ** The properties *)

(** C1: when the file list of an item has a name that ends in ".zip"
    once lowered, [get_item_details] sets [download_url] to the link of
    the first such file in list order; files ending in ".rar", ".7z" or
    ".pbp" may stand before or after it. *)
Theorem zip_is_preferred ident w metadata subjects keywords
    (before : list string) (name : string) (after : list string) :
  (answer (metadata_url ident) None w).1 = Ok metadata →
  subjects_of metadata = Some subjects →
  keywords_of metadata = Some keywords →
  file_names metadata = Some (before ++ name :: after) →
  Forall (λ n, is_zip n = false) before →
  is_zip name = true →
  ∃ item, (get_item_details ident w).1 = Some item
          ∧ download_url item = Some (link_to ident name).
Proof.
  intros Hanswer Hs Hk Hnames Hbefore Hname.
  destruct (get_item_details_shaped _ _ _ _ _ _ Hanswer Hs Hk Hnames)
    as (item & Hitem & Hurl).
  exists item. split; [done|].
  by rewrite Hurl, (find_first _ _ _ _ Hbefore Hname).
Qed.

(** C2: when no name of the file list ends in ".zip" and some name ends
    in ".rar", ".7z" or ".pbp" (once lowered), [get_item_details] sets
    [download_url] to the link of the first file that passes the
    combined test, in list order: the three extensions have no order
    among themselves. *)
Theorem first_other_archive ident w metadata subjects keywords
    (before : list string) (name : string) (after : list string) :
  (answer (metadata_url ident) None w).1 = Ok metadata →
  subjects_of metadata = Some subjects →
  keywords_of metadata = Some keywords →
  file_names metadata = Some (before ++ name :: after) →
  Forall (λ n, is_zip n = false) (before ++ name :: after) →
  Forall (λ n, is_other_archive n = false) before →
  is_other_archive name = true →
  ∃ item, (get_item_details ident w).1 = Some item
          ∧ download_url item = Some (link_to ident name).
Proof.
  intros Hanswer Hs Hk Hnames Hzip Hbefore Hname.
  destruct (get_item_details_shaped _ _ _ _ _ _ Hanswer Hs Hk Hnames)
    as (item & Hitem & Hurl).
  exists item. split; [done|].
  by rewrite Hurl, (find_none _ _ Hzip), (find_first _ _ _ _ Hbefore Hname).
Qed.

(** C3: [extract_category] reads the subject as a list (a single string
    is a one-element list) and returns the first of the eight keywords,
    in their order, that occurs in some subject when both are lowered;
    without such a keyword it returns the first subject as it is, and
    without a subject it returns "Unknown".  The subjects
    ["retro games"; "Emulators"] give "Games". *)
Theorem extract_category_priority metadata subjects :
  subjects_of metadata = Some subjects →
  extract_category metadata = Ok (category_spec subjects)
  ∧ (∀ single, meta_field metadata "subject" = Some (Some (JStr single)) →
               subjects = [single])
  ∧ extract_category
      (Mock.metadata_of (JArr [JStr "retro games"; JStr "Emulators"])
                        (JArr []) [])
    = Ok "Games".
Proof.
  intros Hs. split; [by apply extract_category_shaped|]. split; [|done].
  intros single Hsingle. unfold subjects_of in Hs. rewrite Hsingle in Hs.
  by injection Hs as <-.
Qed.

Lemma strip_empty : Str.strip "" = "".
Proof. reflexivity. Qed.

Lemma find_in {A} (f : A → bool) (l : list A) (x : A) :
  find f l = Some x → x ∈ l.
Proof.
  intros H. apply list_elem_of_In. by apply find_some in H as [? _].
Qed.

Lemma unknown_is_no_keyword : "Unknown" ∉ categories.
Proof.
  unfold categories. intros H.
  repeat (apply elem_of_cons in H as [H|H]; [discriminate H|]).
  by apply elem_of_nil in H.
Qed.

(** C4: [extract_tags] joins the subjects and the keywords (each a
    single string or a list) and returns a set of stripped strings:
    every tag is the stripped form of an entry that is not empty, and
    every entry whose stripped form is not empty has that form among
    the tags.  What an entry made of whitespace only contributes is no
    part of the statement.  The set is taken on the stripped strings as
    they are, letter case included: the subjects ["Action"; "action "]
    with the keywords ["Action"] give the two tags "Action" and
    "action". *)
Theorem extract_tags_set metadata subjects keywords :
  subjects_of metadata = Some subjects →
  keywords_of metadata = Some keywords →
  ∃ tags, extract_tags metadata = Ok tags
    ∧ (∀ tag, tag ∈ tags →
         ∃ raw, raw ∈ subjects ++ keywords ∧ raw ≠ "" ∧ tag = Str.strip raw)
    ∧ (∀ raw, raw ∈ subjects ++ keywords → Str.strip raw ≠ "" →
         Str.strip raw ∈ tags)
    ∧ ∃ example,
        extract_tags
          (Mock.metadata_of (JArr [JStr "Action"; JStr "action "])
                            (JArr [JStr "Action"]) [])
        = Ok example
        ∧ example = {["Action"; "action"]} ∧ size example = 2.
Proof.
  intros Hs Hk. exists (tags_of subjects keywords).
  split; [by apply extract_tags_shaped|]. unfold tags_of. split; [|split].
  - intros tag Htag. apply elem_of_list_to_set, list_elem_of_fmap in Htag.
    destruct Htag as (raw & -> & Hraw).
    apply list_elem_of_filter in Hraw as [Hne Hin]. eauto.
  - intros raw Hin Hne. apply elem_of_list_to_set, list_elem_of_fmap.
    exists raw. split; [done|]. apply list_elem_of_filter. split; [|done].
    intros ->. by rewrite strip_empty in Hne.
  - eexists. split; [reflexivity|]. split; by vm_compute.
Qed.

(** C9: a subject that is the empty string makes [extract_category]
    return the empty string, the only entry of the subject list.  An
    empty subject list gives "Unknown"; with subjects, "Unknown" comes
    out only as the text of the first subject, returned as it is. *)
Theorem unknown_is_the_default metadata subjects :
  subjects_of metadata = Some subjects →
  (meta_field metadata "subject" = Some (Some (JStr "")) →
   extract_category metadata = Ok "")
  ∧ (subjects = [] → extract_category metadata = Ok "Unknown")
  ∧ (extract_category metadata = Ok "Unknown" →
     subjects = [] ∨ head subjects = Some "Unknown").
Proof.
  intros Hs. rewrite (extract_category_shaped _ _ Hs). split; [|split].
  - intros Hempty. unfold subjects_of in Hs. rewrite Hempty in Hs.
    by injection Hs as <-.
  - by intros ->.
  - unfold category_spec.
    destruct (find _ categories) as [cat|] eqn:Hcat.
    + intros [= ->]. apply find_in in Hcat.
      by destruct (unknown_is_no_keyword Hcat).
    + destruct subjects as [|subj rest]; [by left|].
      intros [= ->]. by right.
Qed.

(** C5: the records of [scrape_all] are the per-identifier results of
    [get_item_details], in the order of the enumeration, without the
    absent ones and without those whose [download_url] is null; so every
    record of the output has a [download_url], and a fetch whose files
    all end in none of ".zip", ".rar", ".7z", ".pbp" adds nothing. *)
Theorem output_is_the_linked_fetches w identifiers w1 :
  get_collection_items w = (identifiers, w1) →
  scrape_all w
  = (with_download_url (fetch_each identifiers w1).1,
     (fetch_each identifiers w1).2)
  ∧ Forall (λ it, download_url it ≠ None) (scrape_all w).1
  ∧ (∀ ident w0 metadata names,
       (answer (metadata_url ident) None w0).1 = Ok metadata →
       file_names metadata = Some names →
       Forall (λ n, is_zip n = false ∧ is_other_archive n = false) names →
       with_download_url [(get_item_details ident w0).1] = []).
Proof.
  intros Hids. rewrite scrape_all_fetch, Hids. cbn [fst snd].
  split; [done|]. split; [apply with_download_url_linked|].
  intros ident w0 metadata names Hanswer Hnames Hnone.
  rewrite get_item_details_answer, Hanswer, bind_Ok. cbn [fst].
  destruct (item_of ident metadata) as [item|] eqn:Hitem; [|done].
  unfold with_download_url. simpl. rewrite filter_cons_False; [done|].
  rewrite (item_of_files _ _ _ Hnames _ Hitem).
  rewrite (find_none is_zip), (find_none is_other_archive); [by auto|..].
  - eapply Forall_impl; [done|]. by intros n [_ ?].
  - eapply Forall_impl; [done|]. by intros n [? _].
Qed.

(** C6: when the request for the metadata of an identifier ends in an
    error (network, timeout, status or parse), [get_item_details]
    returns no record for it, and [scrape_all] yields the records of
    the identifiers before it followed by those of the identifiers after
    it, which are fetched as usual once the pause is over. *)
Theorem failed_fetch_is_isolated w before ident after w1 e :
  get_collection_items w = (before ++ ident :: after, w1) →
  (answer (metadata_url ident) None (fetch_each before w1).2).1 = Raise e →
  ∃ w2, get_item_details ident (fetch_each before w1).2 = (None, w2)
        ∧ (scrape_all w).1
          = with_download_url (fetch_each before w1).1
            ++ with_download_url (fetch_each after (time_sleep w2)).1.
Proof.
  intros Hids Hfail. eexists. split; [by eapply get_item_details_failed|].
  rewrite scrape_all_fetch, Hids. cbn [fst snd].
  rewrite fetch_each_app. cbn [fst snd fetch_each].
  rewrite (get_item_details_failed _ _ _ Hfail).
  destruct (fetch_each after _) as [rs w3]. cbn [fst].
  by rewrite with_download_url_app.
Qed.

(** C7: when the search request ends in an error (network, timeout,
    status or parse), [get_collection_items] returns the empty list, and
    [main] goes on to write a document with no items. *)
Theorem enumeration_fails_soft w e fs :
  (answer api_url (Some params) w).1 = Raise e →
  get_collection_items w = ([], (answer api_url (Some params) w).2)
  ∧ (scrape_all w).1 = []
  ∧ (main fs w).1 !! default_filename
    = Some {| total_items := 0;
              scraped_at := strftime_gmtime (answer api_url (Some params) w).2;
              items := [] |}.
Proof.
  intros Hfail. pose proof (get_collection_items_failed _ _ Hfail) as Hids.
  split; [done|]. unfold main, scrape_all. rewrite Hids. cbn [scrape_loop fst].
  split; [done|]. unfold save_to_json. by rewrite lookup_insert_eq.
Qed.

(** C8: the document [save_to_json] writes for a list of records has
    that list as [items] and its length as [total_items]. *)
Theorem total_items_is_length data filename fs w :
  ∃ doc, save_to_json data filename fs w !! filename = Some doc
         ∧ items doc = data
         ∧ total_items doc = length (items doc).
Proof.
  unfold save_to_json. eexists. split; [apply lookup_insert_eq|]. done.
Qed.

(** C10: when one document of the search answer is an object without an
    [identifier], [get_collection_items] returns the empty list, also
    when the other documents have one. *)
Theorem one_bad_document_empties_all w data docs doc :
  (answer api_url (Some params) w).1 = Ok data →
  docs_of data = Some docs →
  doc ∈ docs →
  lacks_identifier doc = true →
  (get_collection_items w).1 = [].
Proof.
  intros Hanswer Hdocs Hin Hlack.
  rewrite (get_collection_items_docs _ _ _ Hanswer Hdocs).
  by destruct (identifiers_of_lacking _ _ Hin Hlack) as [e ->].
Qed.

(** ** Further properties: strings *)

Lemma str_append_cons c s t : String c s +:+ t = String c (s +:+ t).
Proof. reflexivity. Qed.

Lemma str_append_nil_r s : s +:+ "" = s.
Proof. induction s as [|c s IH]; [done|]. by rewrite str_append_cons, IH. Qed.

Lemma str_append_assoc s t u : (s +:+ t) +:+ u = s +:+ t +:+ u.
Proof. induction s as [|c s IH]; [done|]. by rewrite !str_append_cons, IH. Qed.

Lemma str_rev_app_append s t : String.rev_app s t = String.rev s +:+ t.
Proof.
  unfold String.rev. revert t. induction s as [|c s IH]; intros t; simpl; [done|].
  rewrite (IH (String c t)), (IH (String c "")), str_append_assoc. done.
Qed.

Lemma str_rev_cons c s : String.rev (String c s) = String.rev s +:+ String c "".
Proof. unfold String.rev at 1. simpl. apply str_rev_app_append. Qed.

Lemma str_rev_append s t : String.rev (s +:+ t) = String.rev t +:+ String.rev s.
Proof.
  induction s as [|c s IH].
  - by rewrite str_append_nil_r.
  - by rewrite str_append_cons, !str_rev_cons, IH, str_append_assoc.
Qed.

Lemma str_rev_involutive s : String.rev (String.rev s) = s.
Proof.
  induction s as [|c s IH]; [done|].
  by rewrite str_rev_cons, str_rev_append, IH.
Qed.

Lemma startswith_iff s p : Str.startswith s p = true ↔ ∃ rest, s = p +:+ rest.
Proof.
  revert s. induction p as [|a p IH]; intros s; simpl.
  - split; [intros _; by exists s|]. by destruct s.
  - destruct s as [|b s]; simpl.
    + split; [done|]. by intros [rest Hrest].
    + rewrite andb_true_iff, bool_decide_eq_true, IH. split.
      * intros [-> [rest ->]]. by exists rest.
      * intros [rest Hrest]. rewrite str_append_cons in Hrest.
        injection Hrest as -> ->. eauto.
Qed.

Lemma endswith_iff s suffix :
  Str.endswith s suffix = true ↔ ∃ stem, s = stem +:+ suffix.
Proof.
  unfold Str.endswith. rewrite startswith_iff. split.
  - intros [rest Hrest]. exists (String.rev rest).
    by rewrite <-(str_rev_involutive s), Hrest, str_rev_append, str_rev_involutive.
  - intros [stem ->]. exists (String.rev stem). apply str_rev_append.
Qed.

Lemma contains_nil needle :
  Str.contains "" needle = Str.startswith "" needle || false.
Proof. reflexivity. Qed.

Lemma contains_cons c s needle :
  Str.contains (String c s) needle
  = Str.startswith (String c s) needle || Str.contains s needle.
Proof. reflexivity. Qed.

Lemma contains_iff s needle :
  Str.contains s needle = true ↔ ∃ before after, s = before +:+ needle +:+ after.
Proof.
  induction s as [|c s IH];
    [rewrite contains_nil|rewrite contains_cons];
    rewrite orb_true_iff, startswith_iff.
  - split.
    + intros [[rest Hrest]|?]; [|done]. by exists "", rest.
    + intros (before & after & H). left. destruct before; [by exists after|done].
  - rewrite IH. split.
    + intros [[rest Hrest]|(before & after & ->)].
      * by exists "", rest.
      * by exists (String c before), after.
    + intros (before & after & H). destruct before as [|b before].
      * left. by exists after.
      * right. rewrite str_append_cons in H. injection H as -> ->. eauto.
Qed.

Lemma lstrip_head s c rest : Str.lstrip s = String c rest → Str.is_space c = false.
Proof.
  induction s as [|a s IH]; simpl; [done|].
  destruct (Str.is_space a) eqn:Ha; [done|]. by intros [= <- _].
Qed.

Lemma lstrip_fixed s :
  (∀ c rest, s = String c rest → Str.is_space c = false) → Str.lstrip s = s.
Proof.
  destruct s as [|a s]; simpl; [done|]. intros H. by rewrite (H a s eq_refl).
Qed.

Lemma lstrip_idem s : Str.lstrip (Str.lstrip s) = Str.lstrip s.
Proof. apply lstrip_fixed. intros c rest. apply lstrip_head. Qed.

Lemma lstrip_suffix s : ∃ spaces, s = spaces +:+ Str.lstrip s.
Proof.
  induction s as [|a s [spaces IH]]; simpl; [by exists ""|].
  destruct (Str.is_space a).
  - exists (String a spaces). by rewrite str_append_cons, <-IH.
  - by exists "".
Qed.

Lemma rstrip_prefix s : ∃ spaces, s = Str.rstrip s +:+ spaces.
Proof.
  unfold Str.rstrip. destruct (lstrip_suffix (String.rev s)) as [spaces H].
  exists (String.rev spaces).
  by rewrite <-str_rev_append, <-H, str_rev_involutive.
Qed.

Lemma strip_head s c rest : Str.strip s = String c rest → Str.is_space c = false.
Proof.
  unfold Str.strip. intros H.
  destruct (rstrip_prefix (Str.lstrip s)) as [spaces Hx].
  rewrite H, str_append_cons in Hx. by apply lstrip_head in Hx.
Qed.

Lemma strip_last s init c :
  Str.strip s = init +:+ String c "" → Str.is_space c = false.
Proof.
  unfold Str.strip, Str.rstrip. intros H.
  apply (f_equal String.rev) in H.
  rewrite str_rev_involutive, str_rev_append in H.
  by apply lstrip_head in H.
Qed.

Lemma strip_idem s : Str.strip (Str.strip s) = Str.strip s.
Proof.
  unfold Str.strip at 1. rewrite (lstrip_fixed (Str.strip s)).
  - unfold Str.strip, Str.rstrip.
    by rewrite str_rev_involutive, lstrip_idem.
  - intros c rest. apply strip_head.
Qed.

(** ** Further properties: the statistics of [main] *)

Lemma counts_get_set key key' n d :
  counts_get key' (counts_set key n d)
  = if bool_decide (key = key') then n else counts_get key' d.
Proof.
  induction d as [|[k m] d IH]; simpl.
  - done.
  - destruct (bool_decide_reflect (k = key)) as [->|Hk]; simpl.
    + by destruct (bool_decide (key = key')).
    + rewrite IH. destruct (bool_decide_reflect (k = key')) as [->|Hk'];
        [|done]. by rewrite bool_decide_eq_false_2.
Qed.

Lemma counts_set_old_key key n d :
  key ∈ d.*1 → (counts_set key n d).*1 = d.*1.
Proof.
  induction d as [|[k m] d IH]; csimpl; intros Hin.
  - by apply elem_of_nil in Hin.
  - destruct (bool_decide_reflect (k = key)) as [->|Hk]; csimpl; [done|].
    apply elem_of_cons in Hin as [->|Hin]; [done|]. by rewrite IH.
Qed.

Lemma counts_set_new_key key n d :
  key ∉ d.*1 → (counts_set key n d).*1 = d.*1 ++ [key].
Proof.
  induction d as [|[k m] d IH]; csimpl; intros Hin; [done|].
  apply not_elem_of_cons in Hin as [Hk Hin].
  rewrite bool_decide_eq_false_2; [|done]. csimpl. by rewrite IH.
Qed.

Lemma counts_set_NoDup key n d : NoDup d.*1 → NoDup (counts_set key n d).*1.
Proof.
  intros Hd. destruct (decide (key ∈ d.*1)) as [Hin|Hin].
  - by rewrite counts_set_old_key.
  - rewrite counts_set_new_key; [|done].
    apply NoDup_app. split; [done|]. split; [|apply NoDup_singleton].
    by intros x Hx ->%list_elem_of_singleton.
Qed.

Lemma counts_set_sum key n d :
  sum_list (counts_set key n d).*2 + counts_get key d = sum_list d.*2 + n.
Proof.
  induction d as [|[k m] d IH]; csimpl; [lia|].
  destruct (bool_decide (k = key)); csimpl; lia.
Qed.

Lemma counts_set_positive key n d :
  0 < n → Forall (λ p, 0 < p.2) d → Forall (λ p, 0 < p.2) (counts_set key n d).
Proof.
  intros Hn Hd. induction Hd as [|[k m] d Hm Hd IH]; simpl.
  - by repeat constructor.
  - destruct (bool_decide (k = key)); constructor; done.
Qed.

Lemma counts_get_elem key n d :
  NoDup d.*1 → (key, n) ∈ d → counts_get key d = n.
Proof.
  induction d as [|[k m] d IH]; simpl; intros Hnd Hin.
  - by apply elem_of_nil in Hin.
  - apply NoDup_cons in Hnd as [Hk Hnd].
    apply elem_of_cons in Hin as [[= <- <-]|Hin].
    + by rewrite bool_decide_eq_true_2.
    + rewrite bool_decide_eq_false_2; [by apply IH|].
      intros ->. apply Hk. apply list_elem_of_fmap. by exists (key, n).
Qed.

Lemma counts_elem_get key d :
  0 < counts_get key d → (key, counts_get key d) ∈ d.
Proof.
  induction d as [|[k m] d IH]; simpl; [lia|].
  destruct (bool_decide_reflect (k = key)) as [->|Hk]; intros H.
  - apply list_elem_of_here.
  - by apply list_elem_of_further, IH.
Qed.

Lemma occurrences_snoc cat results item :
  occurrences cat (results ++ [item])
  = occurrences cat results + (if bool_decide (category item = cat) then 1 else 0).
Proof.
  unfold occurrences. rewrite filter_app, length_app. f_equal.
  destruct (bool_decide_reflect (category item = cat)) as [H|H].
  - by rewrite filter_cons_True.
  - by rewrite filter_cons_False.
Qed.

Lemma category_counts_snoc results item :
  category_counts (results ++ [item])
  = counts_set (category item)
      (counts_get (category item) (category_counts results) + 1)
      (category_counts results).
Proof. unfold category_counts. by rewrite foldl_app. Qed.

Lemma category_counts_invariant results :
  NoDup (category_counts results).*1
  ∧ Forall (λ p, 0 < p.2) (category_counts results)
  ∧ sum_list (category_counts results).*2 = length results
  ∧ ∀ cat, counts_get cat (category_counts results) = occurrences cat results.
Proof.
  induction results as [|item results (Hnd & Hpos & Hsum & Hget)] using rev_ind.
  - repeat split; [apply NoDup_nil_2|done].
  - rewrite category_counts_snoc. repeat split.
    + by apply counts_set_NoDup.
    + apply counts_set_positive; [lia|done].
    + pose proof (counts_set_sum (category item)
        (counts_get (category item) (category_counts results) + 1)
        (category_counts results)) as H.
      rewrite length_app. simpl. lia.
    + intros cat. rewrite counts_get_set, occurrences_snoc, <-Hget.
      destruct (bool_decide_reflect (category item = cat)) as [->|]; lia.
Qed.

Lemma insert_by_count_perm x l : insert_by_count x l ≡ₚ x :: l.
Proof.
  induction l as [|y l IH]; simpl; [done|].
  destruct (y.2 <=? x.2); [done|]. by rewrite IH, Permutation_swap.
Qed.

Lemma sorted_by_count_perm l : sorted_by_count l ≡ₚ l.
Proof.
  induction l as [|x l IH]; simpl; [done|].
  by rewrite insert_by_count_perm, IH.
Qed.

Lemma insert_by_count_sorted x l :
  StronglySorted (λ a b, b.2 ≤ a.2) l →
  StronglySorted (λ a b, b.2 ≤ a.2) (insert_by_count x l).
Proof.
  induction 1 as [|y l Hl IH Hy]; simpl.
  - by repeat constructor.
  - destruct (Nat.leb_spec y.2 x.2) as [Hle|Hlt].
    + constructor; [by constructor|]. constructor; [done|].
      eapply Forall_impl; [done|]. simpl. lia.
    + constructor; [done|].
      rewrite insert_by_count_perm. constructor; [lia|done].
Qed.

Lemma sorted_by_count_sorted l :
  StronglySorted (λ a b, b.2 ≤ a.2) (sorted_by_count l).
Proof.
  induction l as [|x l IH]; simpl; [constructor|].
  by apply insert_by_count_sorted.
Qed.

Lemma insert_by_count_ties n x l :
  filter (λ p, p.2 = n) (insert_by_count x l) = filter (λ p, p.2 = n) (x :: l).
Proof.
  induction l as [|y l IH]; simpl; [done|].
  destruct (Nat.leb_spec y.2 x.2) as [Hle|Hlt]; [done|].
  rewrite !filter_cons, IH, !filter_cons.
  repeat case_decide; try done. lia.
Qed.

Lemma sorted_by_count_ties n l :
  filter (λ p, p.2 = n) (sorted_by_count l) = filter (λ p, p.2 = n) l.
Proof.
  induction l as [|x l IH]; simpl; [done|].
  by rewrite insert_by_count_ties, !filter_cons, IH.
Qed.

Lemma sum_counts_perm (l k : list (string * nat)) :
  l ≡ₚ k → sum_list l.*2 = sum_list k.*2.
Proof. induction 1; csimpl; lia. Qed.

(** X17: the statistics of [main] list every category of the records
    once, with the number of records that have it, and list no category
    that no record has. *)
Theorem statistics_counts results :
  NoDup (statistics results).*1
  ∧ ∀ cat n, (cat, n) ∈ statistics results
             ↔ n = occurrences cat results ∧ 0 < n.
Proof.
  destruct (category_counts_invariant results) as (Hnd & Hpos & _ & Hget).
  unfold statistics. split.
  - by rewrite sorted_by_count_perm.
  - intros cat n. rewrite sorted_by_count_perm. split.
    + intros Hin. split.
      * by rewrite <-Hget, (counts_get_elem _ _ _ Hnd Hin).
      * by apply (proj1 (Forall_forall _ _) Hpos (cat, n)).
    + intros [-> Hn]. rewrite <-Hget in *. by apply counts_elem_get.
Qed.

(** X18: the counts of the statistics add up to the number of
    records. *)
Theorem statistics_total results :
  sum_list (statistics results).*2 = length results.
Proof.
  destruct (category_counts_invariant results) as (_ & _ & Hsum & _).
  unfold statistics. by rewrite (sum_counts_perm _ _ (sorted_by_count_perm _)).
Qed.

(** X19: the statistics are the counted categories in the order of
    decreasing count; categories with the same count stay in the order
    in which they were first counted. *)
Theorem statistics_sorted results :
  StronglySorted (λ a b, b.2 ≤ a.2) (statistics results)
  ∧ statistics results ≡ₚ category_counts results
  ∧ ∀ n, filter (λ p, p.2 = n) (statistics results)
         = filter (λ p, p.2 = n) (category_counts results).
Proof.
  unfold statistics. split; [apply sorted_by_count_sorted|].
  split; [apply sorted_by_count_perm|]. intros n. apply sorted_by_count_ties.
Qed.

(** ** Further properties: the enumeration *)

Lemma identifiers_of_all docs identifiers :
  Forall2 (λ doc ident, Py.getitem doc "identifier" = Ok ident)
          docs identifiers →
  identifiers_of docs = Ok identifiers.
Proof.
  induction 1 as [|doc ident docs identifiers Hdoc _ IH]; simpl; [done|].
  by rewrite Hdoc, bind_Ok, IH.
Qed.

(** X1: when every document of the search answer has an [identifier],
    [get_collection_items] returns these identifiers, one per document
    and in the order of the answer, whatever their values are. *)
Theorem enumeration_keeps_order w data docs identifiers :
  (answer api_url (Some params) w).1 = Ok data →
  docs_of data = Some docs →
  Forall2 (λ doc ident, Py.getitem doc "identifier" = Ok ident)
          docs identifiers →
  (get_collection_items w).1 = identifiers
  ∧ length identifiers = length docs.
Proof.
  intros Hanswer Hdocs Hall.
  rewrite (get_collection_items_docs _ _ _ Hanswer Hdocs).
  rewrite (identifiers_of_all _ _ Hall). split; [done|].
  symmetry. by eapply Forall2_length.
Qed.

(** X2: a search answer that is not an object, whose [response] is not
    an object or whose [docs] is not a list gives the empty
    enumeration. *)
Theorem misshaped_search_is_empty w data :
  (answer api_url (Some params) w).1 = Ok data →
  docs_of data = None →
  (get_collection_items w).1 = [].
Proof.
  unfold get_collection_items, answer.
  destruct (session_get api_url (Some params) 30 w) as [[resp|e'] w'];
    [|done].
  rewrite !bind_Ok. cbn [fst snd].
  destruct (raise_for_status resp) as [[]|e']; [|done].
  rewrite !bind_Ok. destruct (response_json resp) as [data'|]; [|done].
  intros [= ->]. rewrite bind_Ok. unfold docs_of.
  destruct data as [| | | | | |fields]; try done. run.
  destruct (Py.assoc "response" fields) as [[| | | | | |resp']|];
    try done; cbn [default from_option id]; run.
  destruct (Py.assoc "docs" resp') as [[| | | |s|items|keys]|];
    try done; intros _; cbn [default from_option id Py.iter]; run.
  - by destruct s.
  - by destruct keys as [|[key value] keys].
Qed.

(** ** Further properties: requests and pauses *)

Lemma get_item_details_world ident w :
  (get_item_details ident w).2 = (session_get (metadata_url ident) None 30 w).2.
Proof.
  unfold get_item_details.
  destruct (session_get (metadata_url ident) None 30 w) as [got w'].
  by destruct (_ ≫= _).
Qed.

Lemma get_collection_items_world w :
  (get_collection_items w).2 = (session_get api_url (Some params) 30 w).2.
Proof.
  unfold get_collection_items.
  destruct (session_get api_url (Some params) 30 w) as [got w'].
  by destruct (_ ≫= _).
Qed.

Lemma fetch_each_world identifiers w :
  (fetch_each identifiers w).2 = foldl request_and_pause w identifiers.
Proof.
  revert w. induction identifiers as [|ident identifiers IH]; intros w;
    simpl; [done|].
  pose proof (get_item_details_world ident w) as Hw.
  destruct (get_item_details ident w) as [item w1]. cbn [snd] in Hw.
  specialize (IH (time_sleep w1)).
  destruct (fetch_each identifiers (time_sleep w1)) as [rs w2].
  cbn [snd] in *. rewrite IH. unfold request_and_pause at 2. by rewrite Hw.
Qed.

(** X3: a run of [scrape_all] makes the search request and then, for
    each enumerated identifier in order, exactly one metadata request
    followed by one pause, whether or not the fetch gave a record. *)
Theorem one_request_and_pause_each w :
  (scrape_all w).2
  = foldl request_and_pause
      (session_get api_url (Some params) 30 w).2
      (get_collection_items w).1.
Proof.
  rewrite scrape_all_fetch. cbn [snd].
  by rewrite fetch_each_world, get_collection_items_world.
Qed.

(** ** Further properties: one item *)

Lemma scan_files_stops suffixes before names file name after :
  mapM file_name before = Some names →
  Forall (λ n, Str.endswith_any (Str.lower n) suffixes = false) names →
  file_name file = Some name →
  Str.endswith_any (Str.lower name) suffixes = true →
  scan_files suffixes (before ++ file :: after) = Ok (Some (JStr name)).
Proof.
  rewrite mapM_Some. intros Hbefore. revert after.
  induction Hbefore as [|f n before names Hf _ IH];
    intros after Hnames Hfile Hname; simpl.
  - rewrite (file_name_get _ _ Hfile), bind_Ok. cbn [Py.lower].
    by rewrite bind_Ok, Hname.
  - apply Forall_cons in Hnames as [Hn Hnames].
    rewrite (file_name_get _ _ Hf), bind_Ok. cbn [Py.lower].
    rewrite bind_Ok, Hn. by apply IH.
Qed.

Lemma scan_files_bad suffixes before names bad after :
  mapM file_name before = Some names →
  Forall (λ n, Str.endswith_any (Str.lower n) suffixes = false) names →
  file_name bad = None →
  ∃ e, scan_files suffixes (before ++ bad :: after) = Raise e.
Proof.
  rewrite mapM_Some. intros Hbefore. revert after.
  induction Hbefore as [|f n before names Hf _ IH];
    intros after Hnames Hbad; simpl.
  - unfold file_name in Hbad.
    destruct bad as [| | | | | |fields]; try by eexists.
    rewrite get_fields, bind_Ok.
    destruct (Py.assoc "name" fields) as [[| | | |s| |]|]; try done;
      by eexists.
  - apply Forall_cons in Hnames as [Hn Hnames].
    rewrite (file_name_get _ _ Hf), bind_Ok. cbn [Py.lower].
    rewrite bind_Ok, Hn. by apply IH.
Qed.

Lemma scan_files_found suffixes files filename :
  scan_files suffixes files = Ok (Some filename) →
  ∃ name, filename = JStr name
          ∧ Str.endswith_any (Str.lower name) suffixes = true.
Proof.
  induction files as [|file files IH]; simpl; [done|].
  destruct (Py.get file "name" (JStr "")) as [[| | | |s| |]|]; try done.
  rewrite bind_Ok. cbn [Py.lower]. rewrite bind_Ok.
  destruct (Str.endswith_any (Str.lower s) suffixes) eqn:Hs; [|done].
  intros [= <-]. eauto.
Qed.

Lemma is_zip_all names :
  Forall (λ n, is_zip n = false) names →
  Forall (λ n, Str.endswith_any (Str.lower n) [".zip"] = false) names.
Proof.
  intros H. eapply Forall_impl; [done|]. intros n. by rewrite is_zip_suffix.
Qed.

(** X4: the scan for a zip stops at the first one: when the file list
    starts with entries that are no zip and then has a zip,
    [download_url] is the link of that zip, whatever follows it in the
    list, entries that are no objects included. *)
Theorem entries_after_the_zip_are_not_read ident w fields subjects keywords
    (before : list json) (names : list string) (file : json) (name : string)
    (after : list json) :
  (answer (metadata_url ident) None w).1 = Ok (JObj fields) →
  subjects_of (JObj fields) = Some subjects →
  keywords_of (JObj fields) = Some keywords →
  Py.assoc "files" fields = Some (JArr (before ++ file :: after)) →
  mapM file_name before = Some names →
  Forall (λ n, is_zip n = false) names →
  file_name file = Some name →
  is_zip name = true →
  ∃ item, (get_item_details ident w).1 = Some item
          ∧ download_url item = Some (link_to ident name).
Proof.
  intros Hanswer Hs Hk Hfiles Hbefore Hnames Hfile Hname.
  rewrite get_item_details_answer, Hanswer, bind_Ok. cbn [fst].
  unfold item_of.
  pose proof Hs as Hs'. unfold subjects_of in Hs'.
  destruct (meta_field (JObj fields) "subject") as [fs|] eqn:Hfs; [|done].
  destruct (meta_field_get _ _ _ Hfs) as (meta & Hmeta & _).
  rewrite Hmeta. run.
  rewrite (extract_category_shaped _ _ Hs). run.
  rewrite (extract_tags_shaped _ _ _ Hs Hk). run.
  rewrite Hfiles. cbn [default from_option id]. run.
  rewrite (scan_files_stops [".zip"] _ _ _ _ _ Hbefore (is_zip_all _ Hnames)
             Hfile); [|by rewrite is_zip_suffix].
  run. cbn [download_url set_download_url]. rewrite truthy_link. cbn [negb].
  eauto.
Qed.

(** X5: an entry of the file list that is no object, or whose name is no
    string, makes [get_item_details] return no record when no zip
    stands before it. *)
Theorem bad_entry_before_a_zip_drops_item ident w fields
    (before : list json) (names : list string) (bad : json)
    (after : list json) :
  (answer (metadata_url ident) None w).1 = Ok (JObj fields) →
  Py.assoc "files" fields = Some (JArr (before ++ bad :: after)) →
  mapM file_name before = Some names →
  Forall (λ n, is_zip n = false) names →
  file_name bad = None →
  (get_item_details ident w).1 = None.
Proof.
  intros Hanswer Hfiles Hbefore Hnames Hbad.
  rewrite get_item_details_answer, Hanswer, bind_Ok. cbn [fst].
  unfold item_of. run.
  destruct (Py.get _ "title" (JStr "")) as [ttl|]; [|done]. run.
  destruct (extract_category (JObj fields)) as [cat|]; [|done]. run.
  destruct (extract_tags (JObj fields)) as [tgs|]; [|done]. run.
  rewrite Hfiles. cbn [default from_option id]. run.
  destruct (scan_files_bad [".zip"] _ _ _ after Hbefore (is_zip_all _ Hnames)
              Hbad) as [e ->].
  done.
Qed.

(** X6: an answer that is an object without [metadata] and without
    [files] gives a record with the empty title, the category
    "Unknown", no tags and no download URL. *)
Theorem missing_keys_give_defaults ident w fields :
  (answer (metadata_url ident) None w).1 = Ok (JObj fields) →
  Py.assoc "metadata" fields = None →
  Py.assoc "files" fields = None →
  (get_item_details ident w).1
  = Some {| identifier := ident; title := JStr ""; category := "Unknown";
            tags := ∅; download_url := None;
            url := base_url +:+ "/details/" +:+ py_str ident |}.
Proof.
  intros Hanswer Hmeta Hfiles.
  rewrite get_item_details_answer, Hanswer, bind_Ok. cbn [fst].
  unfold item_of, extract_category, extract_tags. run.
  rewrite Hmeta, Hfiles. reflexivity.
Qed.

(** X7: when the answer is no object, or its [metadata] is no object,
    [get_item_details] returns no record. *)
Theorem misshaped_metadata_drops_item ident w metadata key :
  (answer (metadata_url ident) None w).1 = Ok metadata →
  meta_field metadata key = None →
  (get_item_details ident w).1 = None.
Proof.
  intros Hanswer Hshape.
  rewrite get_item_details_answer, Hanswer, bind_Ok. cbn [fst].
  unfold item_of, meta_field in *.
  destruct metadata as [| | | | | |fields]; try done. run.
  by destruct (Py.assoc "metadata" fields) as [[| | | | | |meta]|].
Qed.

(** X8: a [subject] or [keywords] that is null, a bool or a number makes
    [extract_tags] raise [TypeError], and [get_item_details] returns no
    record for the item, whatever its files are. *)
Theorem not_iterable_field_drops_item ident w metadata key field :
  (answer (metadata_url ident) None w).1 = Ok metadata →
  key = "subject" ∨ key = "keywords" →
  meta_field metadata key = Some (Some field) →
  not_iterable field = true →
  extract_tags metadata = Raise TypeError
  ∧ (get_item_details ident w).1 = None.
Proof.
  intros Hanswer Hkey Hfield Hbad.
  destruct (meta_field_get _ _ _ Hfield) as (meta & Hmeta & Hget).
  assert (extract_tags metadata = Raise TypeError) as Htags.
  { unfold extract_tags. rewrite Hmeta. run.
    destruct Hkey as [-> | ->].
    - rewrite Hget. by destruct field.
    - destruct (Py.iter _) as [subjs|e] eqn:Hsubjs.
      + run. rewrite Hget. by destruct field.
      + rewrite bind_Raise. f_equal.
        destruct (default (JArr []) (Py.assoc "subject" meta));
          simpl in Hsubjs; congruence. }
  split; [done|].
  rewrite get_item_details_answer, Hanswer, bind_Ok. cbn [fst].
  unfold item_of. rewrite Hmeta. run.
  destruct (extract_category metadata) as [cat|]; [|done].
  by rewrite bind_Ok, Htags.
Qed.

Lemma item_of_record ident metadata item :
  item_of ident metadata = Ok item →
  identifier item = ident
  ∧ url item = base_url +:+ "/details/" +:+ py_str ident
  ∧ (download_url item = None
     ∨ ∃ name, download_url item = Some (link_to ident name)
               ∧ (is_zip name = true ∨ is_other_archive name = true)).
Proof.
  unfold item_of.
  destruct (Py.get metadata "metadata" (JObj [])) as [meta|]; [|done].
  rewrite bind_Ok.
  destruct (Py.get meta "title" (JStr "")) as [ttl|]; [|done].
  rewrite bind_Ok.
  destruct (extract_category metadata) as [cat|]; [|done].
  rewrite bind_Ok.
  destruct (extract_tags metadata) as [tgs|]; [|done].
  rewrite bind_Ok. cbv zeta.
  destruct (Py.get metadata "files" (JArr [])) as [files|]; [|done].
  rewrite bind_Ok.
  destruct (Py.iter files) as [file_list|]; [|done].
  rewrite !bind_Ok.
  destruct (scan_files [".zip"] file_list) as [[zip|]|] eqn:Hzip; [..|done];
    rewrite bind_Ok.
  - cbn [download_url set_download_url]. rewrite truthy_link. cbn [negb].
    intros [= <-]. split; [done|]. split; [done|]. right.
    destruct (scan_files_found _ _ _ Hzip) as (name & -> & Hname).
    exists name. split; [done|]. left. by rewrite <-is_zip_suffix.
  - cbn [download_url truthy_url negb]. rewrite bind_Ok.
    destruct (scan_files [".rar"; ".7z"; ".pbp"] file_list) as [[other|]|]
      eqn:Hother; [..|done]; rewrite bind_Ok; intros [= <-].
    + split; [done|]. split; [done|]. right.
      destruct (scan_files_found _ _ _ Hother) as (name & -> & Hname).
      exists name. split; [done|]. right. by rewrite <-is_other_archive_suffix.
    + split; [done|]. split; [done|]. by left.
Qed.

(** X9: every record [get_item_details] returns carries the identifier
    it was asked for and the details link of that identifier; its
    download URL is null or the download link of a name that ends in one
    of the four extensions. *)
Theorem record_is_about_its_identifier ident w item :
  (get_item_details ident w).1 = Some item →
  identifier item = ident
  ∧ url item = base_url +:+ "/details/" +:+ py_str ident
  ∧ (download_url item = None
     ∨ ∃ name, download_url item = Some (link_to ident name)
               ∧ (is_zip name = true ∨ is_other_archive name = true)).
Proof.
  rewrite get_item_details_answer. cbn [fst].
  destruct (answer (metadata_url ident) None w).1 as [metadata|]; [|done].
  rewrite bind_Ok.
  destruct (item_of ident metadata) as [it|] eqn:Hit; [|done].
  intros [= <-]. exact (item_of_record _ _ _ Hit).
Qed.

Lemma fetched_identifiers identifiers w :
  identifier <$> with_download_url (fetch_each identifiers w).1
  `sublist_of` identifiers.
Proof.
  revert w. induction identifiers as [|ident identifiers IH]; intros w; simpl.
  - done.
  - pose proof (record_is_about_its_identifier ident w) as Hrec.
    destruct (get_item_details ident w) as [item w1]. cbn [fst] in Hrec.
    specialize (IH (time_sleep w1)).
    destruct (fetch_each identifiers (time_sleep w1)) as [rs w2].
    cbn [fst] in *.
    change (item :: rs) with ([item] ++ rs).
    rewrite with_download_url_app, fmap_app.
    destruct item as [it|]; unfold with_download_url at 1; simpl.
    + destruct (Hrec it eq_refl) as (Hid & _).
      rewrite filter_cons. case_decide; simpl.
      * rewrite Hid. by apply sublist_skip.
      * by apply sublist_cons.
    + by apply sublist_cons.
Qed.

(** X10: the identifiers of the records of [scrape_all] are a
    subsequence of the enumeration: the output keeps the order and has
    at most one record for each position of the enumeration. *)
Theorem output_follows_the_enumeration w :
  identifier <$> (scrape_all w).1 `sublist_of` (get_collection_items w).1
  ∧ length (scrape_all w).1 ≤ length (get_collection_items w).1.
Proof.
  rewrite scrape_all_fetch. cbn [fst].
  pose proof (fetched_identifiers (get_collection_items w).1
                (get_collection_items w).2) as H.
  split; [done|]. apply sublist_length in H. by rewrite length_fmap in H.
Qed.

(** ** Further properties: tags *)

Lemma size_list_to_set_le (l : list string) :
  size (list_to_set l : gset string) ≤ length l.
Proof.
  induction l as [|x l IH].
  - by rewrite list_to_set_nil, size_empty.
  - rewrite list_to_set_cons, size_union_alt, size_singleton. cbn [length].
    assert (size (list_to_set l ∖ {[x]} : gset string)
            ≤ size (list_to_set l : gset string)) as Hle; [|lia].
    apply subseteq_size. intros y Hy. by apply elem_of_difference in Hy as [? _].
Qed.

Lemma extract_tags_stripped metadata tags :
  extract_tags metadata = Ok tags →
  ∃ l, tags = list_to_set (Str.strip <$> l).
Proof.
  unfold extract_tags.
  destruct (Py.get metadata "metadata" (JObj [])) as [meta|]; [|done].
  rewrite bind_Ok. cbv zeta.
  destruct (Py.get meta "subject" (JArr [])) as [subject|]; [|done].
  rewrite bind_Ok.
  destruct (Py.iter _) as [subjs|]; [|done]. rewrite bind_Ok.
  destruct (Py.get meta "keywords" (JArr [])) as [keywords|]; [|done].
  rewrite bind_Ok.
  destruct (Py.iter _) as [kws|]; [|done]. rewrite bind_Ok.
  intros [= <-]. eauto.
Qed.

(** X11: every tag [extract_tags] returns is a stripped string: it
    neither starts nor ends with a whitespace character, and stripping
    it again changes nothing. *)
Theorem tags_are_stripped metadata tags tag :
  extract_tags metadata = Ok tags →
  tag ∈ tags →
  Str.strip tag = tag
  ∧ (∀ c rest, tag = String c rest → Str.is_space c = false)
  ∧ (∀ init c, tag = init +:+ String c "" → Str.is_space c = false).
Proof.
  intros Htags Hin. destruct (extract_tags_stripped _ _ Htags) as [l ->].
  apply elem_of_list_to_set, list_elem_of_fmap in Hin as (raw & -> & _).
  split; [apply strip_idem|]. split.
  - intros c rest. apply strip_head.
  - intros init c. apply strip_last.
Qed.

(** X12: the emptiness test of [extract_tags] runs before the
    stripping: every non-empty entry contributes its stripped form, so
    the empty tag is in the result exactly when some entry is not empty
    and all whitespace; and there are at most as many tags as non-empty
    entries. *)
Theorem blank_entries_become_the_empty_tag metadata subjects keywords tags :
  subjects_of metadata = Some subjects →
  keywords_of metadata = Some keywords →
  extract_tags metadata = Ok tags →
  (∀ raw, raw ∈ subjects ++ keywords → raw ≠ "" → Str.strip raw ∈ tags)
  ∧ ("" ∈ tags ↔ ∃ raw, raw ∈ subjects ++ keywords
                         ∧ raw ≠ "" ∧ Str.strip raw = "")
  ∧ size tags ≤ length (filter (λ raw, raw ≠ "") (subjects ++ keywords)).
Proof.
  intros Hs Hk. rewrite (extract_tags_shaped _ _ _ Hs Hk). intros [= <-].
  unfold tags_of.
  assert (∀ tag, tag ∈ (list_to_set (Str.strip <$> filter (λ raw, raw ≠ "")
                          (subjects ++ keywords)) : gset string)
                 ↔ ∃ raw, raw ∈ subjects ++ keywords
                          ∧ raw ≠ "" ∧ Str.strip raw = tag) as Hmem.
  { intros tag. rewrite elem_of_list_to_set, list_elem_of_fmap. split.
    - intros (raw & -> & Hraw). apply list_elem_of_filter in Hraw as [? ?].
      eauto.
    - intros (raw & Hin & Hne & <-). exists raw. split; [done|].
      by apply list_elem_of_filter. }
  split; [|split].
  - intros raw Hin Hne. apply Hmem. eauto.
  - apply Hmem.
  - etrans; [apply size_list_to_set_le|]. by rewrite length_fmap.
Qed.

(** ** Further properties: the written document *)

(** X14: the document [main] writes under the default file name holds
    the records of [scrape_all] in their order, their number as
    [total_items], the time read after the last pause, and only records
    that have a download URL. *)
Theorem main_writes_the_catalog fs w :
  ∃ doc, (main fs w).1 !! default_filename = Some doc
         ∧ items doc = (scrape_all w).1
         ∧ total_items doc = length (scrape_all w).1
         ∧ scraped_at doc = strftime_gmtime (scrape_all w).2
         ∧ Forall (λ it, download_url it ≠ None) (items doc)
         ∧ (main fs w).2 = (scrape_all w).2.
Proof.
  unfold main. pose proof (scrape_all_fetch w) as Hout.
  destruct (scrape_all w) as [results w1]. cbn [fst snd].
  unfold save_to_json. eexists. split; [apply lookup_insert_eq|].
  cbn [items total_items scraped_at]. repeat split.
  injection Hout as -> _. apply with_download_url_linked.
Qed.

(** ** Further properties: the suffix and the keyword test *)

(** X15: a name passes the zip test exactly when its lowered form is
    some stem followed by ".zip", and the other test exactly when it is
    a stem followed by ".rar", ".7z" or ".pbp". *)
Theorem archive_tests_are_suffix_tests name :
  (is_zip name = true ↔ ∃ stem, Str.lower name = stem +:+ ".zip")
  ∧ (is_other_archive name = true
     ↔ ∃ stem, Str.lower name = stem +:+ ".rar"
               ∨ Str.lower name = stem +:+ ".7z"
               ∨ Str.lower name = stem +:+ ".pbp").
Proof.
  unfold is_zip, is_other_archive. split; [apply endswith_iff|].
  rewrite !orb_true_iff, !endswith_iff. split.
  - intros [[[stem H]|[stem H]]|[stem H]]; exists stem; auto.
  - intros [stem [H|[H|H]]]; eauto.
Qed.

(** X16: a subject mentions a keyword exactly when the lowered keyword
    occurs in the lowered subject as a run of consecutive characters. *)
Theorem mentions_is_substring subj cat :
  mentions subj cat = true
  ↔ ∃ before after, Str.lower subj = before +:+ Str.lower cat +:+ after.
Proof. unfold mentions. apply contains_iff. Qed.

(** ** Further properties: records without a link, subject order *)

(** X20: for an item none of whose files ends in one of the four
    extensions, [get_item_details] still returns a record, with its
    category and tags, whose [download_url] is null; leaving it out is
    the work of [scrape_all]. *)
Theorem no_archive_gives_a_record_without_link ident w metadata subjects
    keywords names :
  (answer (metadata_url ident) None w).1 = Ok metadata →
  subjects_of metadata = Some subjects →
  keywords_of metadata = Some keywords →
  file_names metadata = Some names →
  Forall (λ n, is_zip n = false ∧ is_other_archive n = false) names →
  ∃ item, (get_item_details ident w).1 = Some item
          ∧ download_url item = None
          ∧ category item = category_spec subjects
          ∧ tags item = tags_of subjects keywords.
Proof.
  intros Hanswer Hs Hk Hnames Hnone.
  destruct (item_of_shaped ident _ _ _ _ Hs Hk Hnames)
    as (item & Hitem & _ & Hcat & Htags).
  exists item. rewrite get_item_details_answer, Hanswer, bind_Ok, Hitem.
  split; [done|]. split; [|done].
  rewrite (item_of_files _ _ _ Hnames _ Hitem).
  rewrite (find_none is_zip), (find_none is_other_archive); [done|..].
  - eapply Forall_impl; [done|]. by intros n [_ ?].
  - eapply Forall_impl; [done|]. by intros n [? _].
Qed.

Lemma existsb_perm {A} (f : A → bool) (l k : list A) :
  l ≡ₚ k → existsb f l = existsb f k.
Proof.
  induction 1 as [|x l k _ IH|x y l|l k m _ IH1 _ IH2]; simpl.
  - done.
  - by rewrite IH.
  - by destruct (f x), (f y).
  - by rewrite IH1.
Qed.

(** X21: when some subject mentions a keyword, the category does not
    depend on the order of the subjects: the keywords are tried in
    their own order, each against all subjects. *)
Theorem keyword_match_ignores_subject_order metadata metadata' subjects
    subjects' subj cat :
  subjects_of metadata = Some subjects →
  subjects_of metadata' = Some subjects' →
  subjects ≡ₚ subjects' →
  subj ∈ subjects → cat ∈ categories → mentions subj cat = true →
  extract_category metadata = extract_category metadata'.
Proof.
  intros Hs Hs' Hperm Hsubj Hcat Hmentions.
  rewrite (extract_category_shaped _ _ Hs), (extract_category_shaped _ _ Hs').
  f_equal. unfold category_spec.
  rewrite (find_ext _ (λ cat, existsb (λ subj, mentions subj cat) subjects')
             categories); [|by intros c; apply existsb_perm].
  destruct (find _ categories) as [found|] eqn:Hfind; [done|].
  exfalso. apply list_elem_of_In in Hcat.
  pose proof (List.find_none _ _ Hfind cat Hcat) as Hnot. simpl in Hnot.
  assert (existsb (λ subj, mentions subj cat) subjects' = true) as Hyes.
  { rewrite <-(existsb_perm _ _ _ Hperm). apply existsb_exists.
    exists subj. split; [by apply list_elem_of_In|done]. }
  by rewrite Hyes in Hnot.
Qed.

End Scraper.

(** ** The properties on the test double *)

(** C1 on item [a]: the zip is third in the list, after a rar. *)
Lemma zip_is_preferred_witness :
  ∃ item,
    (get_item_details (Mock.session_get Mock.three_items)
       Mock.raise_for_status Mock.response_json Mock.repr (JStr "a") []).1
    = Some item
    ∧ download_url item = Some "https://archive.org/download/a/a.ZIP".
Proof.
  apply (zip_is_preferred (Mock.session_get Mock.three_items)
           Mock.raise_for_status Mock.response_json Mock.repr
           (JStr "a") [] Mock.metadata_a ["retro games"; "Emulators"] []
           ["a.RAR"; "readme.txt"] "a.ZIP" ["b.zip"]);
    try reflexivity.
  repeat constructor.
Defined.

(** C2 on item [c]: the pbp stands before the 7z and is chosen. *)
Lemma first_other_archive_witness :
  ∃ item,
    (get_item_details (Mock.session_get Mock.three_items)
       Mock.raise_for_status Mock.response_json Mock.repr (JStr "c") []).1
    = Some item
    ∧ download_url item = Some "https://archive.org/download/c/EBOOT.PBP".
Proof.
  apply (first_other_archive (Mock.session_get Mock.three_items)
           Mock.raise_for_status Mock.response_json Mock.repr
           (JStr "c") [] Mock.metadata_c [""] ["homebrew"]
           ["notes.txt"] "EBOOT.PBP" ["c.7z"]);
    try reflexivity; repeat constructor.
Defined.

(** C3 on a single subject string that mentions two keywords. *)
Lemma extract_category_priority_witness :
  extract_category Mock.repr
    (Mock.metadata_of (JStr "PSP emulators and GAMES") (JArr []) [])
  = Ok "Games".
Proof.
  exact (proj1 (extract_category_priority Mock.repr
                  (Mock.metadata_of (JStr "PSP emulators and GAMES") (JArr []) [])
                  ["PSP emulators and GAMES"] eq_refl)).
Defined.

(** C4 as the specification has it: the example gives two tags. *)
Lemma extract_tags_counterexample :
  ∃ tags,
    extract_tags Mock.repr
      (Mock.metadata_of (JArr [JStr "Action"; JStr "action "])
                        (JArr [JStr "Action"]) [])
    = Ok tags
    ∧ size tags = 2 ∧ size tags ≠ 1.
Proof.
  eexists. split; [reflexivity|]. split; [by vm_compute|].
  vm_compute. discriminate.
Qed.

(** C4 on a padded subject next to an empty one. *)
Lemma extract_tags_set_witness :
  ∃ tags,
    extract_tags Mock.repr
      (Mock.metadata_of (JArr [JStr " padded "; JStr ""]) (JStr "homebrew") [])
    = Ok tags
    ∧ "padded" ∈ tags ∧ "homebrew" ∈ tags.
Proof.
  destruct (extract_tags_set Mock.repr
              (Mock.metadata_of (JArr [JStr " padded "; JStr ""])
                                (JStr "homebrew") [])
              [" padded "; ""] ["homebrew"] eq_refl eq_refl)
    as (tags & Htags & _ & Hin & _).
  exists tags. split; [exact Htags|]. split.
  - apply (Hin " padded "); [repeat constructor|discriminate].
  - apply (Hin "homebrew"); [repeat constructor|discriminate].
Defined.

(** C9 as stated: a subject list that is not empty gives "Unknown". *)
Lemma unknown_subject_counterexample :
  extract_category Mock.repr
    (Mock.metadata_of (JArr [JStr "Unknown"]) (JArr []) [])
  = Ok "Unknown"
  ∧ subjects_of Mock.repr
      (Mock.metadata_of (JArr [JStr "Unknown"]) (JArr []) [])
    = Some ["Unknown"].
Proof. split; reflexivity. Qed.

(** C9 on item [c], whose subject is the empty string. *)
Lemma unknown_is_the_default_witness :
  extract_category Mock.repr Mock.metadata_c = Ok "".
Proof.
  exact (proj1 (unknown_is_the_default Mock.repr Mock.metadata_c [""] eq_refl)
           eq_refl).
Defined.

(** C5 on two items, the second with a text file only: one record. *)
Lemma output_is_the_linked_fetches_witness :
  identifier <$>
    (scrape_all (Mock.session_get Mock.two_items) Mock.raise_for_status
       Mock.response_json Mock.time_sleep Mock.repr []).1
  = [JStr "a"]
  ∧ with_download_url
      [(get_item_details (Mock.session_get Mock.two_items)
          Mock.raise_for_status Mock.response_json Mock.repr (JStr "b") []).1]
    = [].
Proof.
  destruct (output_is_the_linked_fetches (Mock.session_get Mock.two_items)
              Mock.raise_for_status Mock.response_json Mock.time_sleep
              Mock.repr [] [JStr "a"; JStr "b"]
              [Mock.Requested Mock.search_url] eq_refl)
    as (Hout & _ & Hdrop).
  split.
  - rewrite Hout. reflexivity.
  - apply (Hdrop (JStr "b") []
             (Mock.metadata_of (JArr []) (JArr []) ["b.txt"]) ["b.txt"]);
      [reflexivity|reflexivity|repeat constructor].
Defined.

(** C6 on three items, the second of which times out: the first and the
    third are in the output. *)
Lemma failed_fetch_is_isolated_witness :
  identifier <$>
    (scrape_all (Mock.session_get Mock.three_items) Mock.raise_for_status
       Mock.response_json Mock.time_sleep Mock.repr []).1
  = [JStr "a"; JStr "c"].
Proof.
  destruct (failed_fetch_is_isolated (Mock.session_get Mock.three_items)
              Mock.raise_for_status Mock.response_json Mock.time_sleep
              Mock.repr [] [JStr "a"] (JStr "b") [JStr "c"]
              [Mock.Requested Mock.search_url] ReadTimeout eq_refl eq_refl)
    as (w2 & Hnone & Hout).
  injection Hnone as <-. rewrite Hout. reflexivity.
Defined.

(** C7 on a search that answers 503: an empty document is written. *)
Lemma enumeration_fails_soft_witness :
  get_collection_items (Mock.session_get Mock.search_down)
    Mock.raise_for_status Mock.response_json []
  = ([], [Mock.Requested Mock.search_url])
  ∧ (scrape_all (Mock.session_get Mock.search_down) Mock.raise_for_status
       Mock.response_json Mock.time_sleep Mock.repr []).1 = []
  ∧ (main (Mock.session_get Mock.search_down) Mock.raise_for_status
       Mock.response_json Mock.time_sleep Mock.strftime_gmtime Mock.repr
       ∅ []).1 !! default_filename
    = Some {| total_items := 0;
              scraped_at := "2024-01-01 00:00:00 UTC";
              items := [] |}.
Proof.
  exact (enumeration_fails_soft (Mock.session_get Mock.search_down)
           Mock.raise_for_status Mock.response_json Mock.time_sleep
           Mock.strftime_gmtime Mock.repr [] HTTPError ∅ eq_refl).
Defined.

(** C10 on three documents, the second without identifier. *)
Lemma one_bad_document_empties_all_witness :
  (get_collection_items (Mock.session_get Mock.one_bad_doc)
     Mock.raise_for_status Mock.response_json []).1 = [].
Proof.
  apply (one_bad_document_empties_all (Mock.session_get Mock.one_bad_doc)
           Mock.raise_for_status Mock.response_json []
           (Mock.search_of [Mock.doc "a"; JObj [("title", JStr "untitled")];
                            Mock.doc "c"])
           [Mock.doc "a"; JObj [("title", JStr "untitled")]; Mock.doc "c"]
           (JObj [("title", JStr "untitled")]));
    [reflexivity|reflexivity|repeat constructor|reflexivity].
Defined.

(** ** Further properties on the test double *)

(** X1 on the three documents of [three_items]. *)
Lemma enumeration_keeps_order_witness :
  (get_collection_items (Mock.session_get Mock.three_items)
     Mock.raise_for_status Mock.response_json []).1
  = [JStr "a"; JStr "b"; JStr "c"]
  ∧ length [JStr "a"; JStr "b"; JStr "c"]
    = length [Mock.doc "a"; Mock.doc "b"; Mock.doc "c"].
Proof.
  apply (enumeration_keeps_order (Mock.session_get Mock.three_items)
           Mock.raise_for_status Mock.response_json []
           (Mock.search_of [Mock.doc "a"; Mock.doc "b"; Mock.doc "c"]));
    [reflexivity|reflexivity|repeat constructor].
Defined.

(** X2 on a search answer whose [docs] is null. *)
Lemma misshaped_search_is_empty_witness :
  (get_collection_items
     (Mock.session_get
        (Cases.search_answers (JObj [("response", JObj [("docs", JNull)])])))
     Mock.raise_for_status Mock.response_json []).1 = [].
Proof.
  apply (misshaped_search_is_empty
           (Mock.session_get
              (Cases.search_answers
                 (JObj [("response", JObj [("docs", JNull)])])))
           Mock.raise_for_status Mock.response_json []
           (JObj [("response", JObj [("docs", JNull)])]));
    reflexivity.
Defined.

(** X4 on a zip followed by a null and a number. *)
Lemma entries_after_the_zip_are_not_read_witness :
  ∃ item,
    (get_item_details
       (Mock.session_get (Cases.one_item (JObj Cases.zip_then_junk)))
       Mock.raise_for_status Mock.response_json Mock.repr (JStr "a") []).1
    = Some item
    ∧ download_url item = Some "https://archive.org/download/a/game.ZIP".
Proof.
  apply (entries_after_the_zip_are_not_read
           (Mock.session_get (Cases.one_item (JObj Cases.zip_then_junk)))
           Mock.raise_for_status Mock.response_json Mock.repr
           (JStr "a") [] Cases.zip_then_junk ["Games"] []
           [Cases.named "readme.txt"] ["readme.txt"]
           (Cases.named "game.ZIP") "game.ZIP" [JNull; JInt 3]);
    try reflexivity.
  repeat constructor.
Defined.

(** X5 on a null name standing before the zip. *)
Lemma bad_entry_before_a_zip_drops_item_witness :
  (get_item_details
     (Mock.session_get (Cases.one_item (JObj Cases.null_name_first)))
     Mock.raise_for_status Mock.response_json Mock.repr (JStr "a") []).1
  = None.
Proof.
  apply (bad_entry_before_a_zip_drops_item
           (Mock.session_get (Cases.one_item (JObj Cases.null_name_first)))
           Mock.raise_for_status Mock.response_json Mock.repr
           (JStr "a") [] Cases.null_name_first
           [Cases.named "readme.txt"] ["readme.txt"]
           (JObj [("name", JNull)]) [Cases.named "game.zip"]);
    try reflexivity.
  repeat constructor.
Defined.

(** X6 on the empty object, the answer for an unknown identifier. *)
Lemma missing_keys_give_defaults_witness :
  (get_item_details (Mock.session_get (Cases.one_item (JObj [])))
     Mock.raise_for_status Mock.response_json Mock.repr (JStr "a") []).1
  = Some {| identifier := JStr "a"; title := JStr ""; category := "Unknown";
            tags := ∅; download_url := None;
            url := "https://archive.org/details/a" |}.
Proof.
  exact (missing_keys_give_defaults
           (Mock.session_get (Cases.one_item (JObj [])))
           Mock.raise_for_status Mock.response_json Mock.repr
           (JStr "a") [] [] eq_refl eq_refl eq_refl).
Defined.

(** X7 on an answer that is a list. *)
Lemma misshaped_metadata_drops_item_witness :
  (get_item_details (Mock.session_get (Cases.one_item (JArr [])))
     Mock.raise_for_status Mock.response_json Mock.repr (JStr "a") []).1
  = None.
Proof.
  exact (misshaped_metadata_drops_item
           (Mock.session_get (Cases.one_item (JArr [])))
           Mock.raise_for_status Mock.response_json Mock.repr
           (JStr "a") [] (JArr []) "subject" eq_refl eq_refl).
Defined.

(** X8 on a null subject next to a zip. *)
Lemma not_iterable_field_drops_item_witness :
  extract_tags Mock.repr (JObj Cases.null_subject) = Raise TypeError
  ∧ (get_item_details
       (Mock.session_get (Cases.one_item (JObj Cases.null_subject)))
       Mock.raise_for_status Mock.response_json Mock.repr (JStr "a") []).1
    = None.
Proof.
  exact (not_iterable_field_drops_item
           (Mock.session_get (Cases.one_item (JObj Cases.null_subject)))
           Mock.raise_for_status Mock.response_json Mock.repr
           (JStr "a") [] (JObj Cases.null_subject) "subject" JNull
           eq_refl (or_introl eq_refl) eq_refl eq_refl).
Defined.

(** X9 on item [a] of [two_items]. *)
Lemma record_is_about_its_identifier_witness :
  ∃ name,
    Some "https://archive.org/download/a/a.zip"
    = Some (link_to Mock.repr (JStr "a") name)
    ∧ (is_zip name = true ∨ is_other_archive name = true).
Proof.
  destruct (record_is_about_its_identifier
              (Mock.session_get Mock.two_items)
              Mock.raise_for_status Mock.response_json Mock.repr
              (JStr "a") []
              {| identifier := JStr "a"; title := JStr "A title";
                 category := "Unknown"; tags := ∅;
                 download_url := Some "https://archive.org/download/a/a.zip";
                 url := "https://archive.org/details/a" |}
              eq_refl)
    as (_ & _ & [Hnone | Hlink]).
  - discriminate Hnone.
  - exact Hlink.
Defined.

(** X11 on a padded subject. *)
Lemma tags_are_stripped_witness :
  Str.strip "padded" = "padded"
  ∧ (∀ c rest, "padded" = String c rest → Str.is_space c = false)
  ∧ (∀ init c, "padded" = init +:+ String c "" → Str.is_space c = false).
Proof.
  apply (tags_are_stripped Mock.repr
           (Mock.metadata_of (JArr [JStr " padded "]) (JArr []) [])
           {["padded"]} "padded" eq_refl).
  by apply elem_of_singleton.
Defined.

(** X12 on a subject that is one space, next to a real one. *)
Lemma blank_entries_become_the_empty_tag_witness :
  "" ∈ tags_of [" "; "a"] [].
Proof.
  destruct (blank_entries_become_the_empty_tag Mock.repr
              (Mock.metadata_of (JArr [JStr " "; JStr "a"]) (JArr []) [])
              [" "; "a"] [] (tags_of [" "; "a"] []) eq_refl eq_refl eq_refl)
    as (_ & Hblank & _).
  apply Hblank. exists " ". split; [repeat constructor|]. by split.
Defined.

(** X20 on item [b] of [two_items], which has a text file only. *)
Lemma no_archive_gives_a_record_without_link_witness :
  ∃ item,
    (get_item_details (Mock.session_get Mock.two_items)
       Mock.raise_for_status Mock.response_json Mock.repr (JStr "b") []).1
    = Some item
    ∧ download_url item = None
    ∧ category item = "Unknown"
    ∧ tags item = tags_of [] [].
Proof.
  apply (no_archive_gives_a_record_without_link
           (Mock.session_get Mock.two_items)
           Mock.raise_for_status Mock.response_json Mock.repr (JStr "b") []
           (Mock.metadata_of (JArr []) (JArr []) ["b.txt"]) [] [] ["b.txt"]);
    try reflexivity.
  repeat constructor.
Defined.

(** X21 on the subjects of item [a], in both orders. *)
Lemma keyword_match_ignores_subject_order_witness :
  extract_category Mock.repr
    (Mock.metadata_of (JArr [JStr "retro games"; JStr "Emulators"]) (JArr []) [])
  = extract_category Mock.repr
      (Mock.metadata_of (JArr [JStr "Emulators"; JStr "retro games"]) (JArr []) []).
Proof.
  apply (keyword_match_ignores_subject_order Mock.repr
           (Mock.metadata_of (JArr [JStr "retro games"; JStr "Emulators"])
                             (JArr []) [])
           (Mock.metadata_of (JArr [JStr "Emulators"; JStr "retro games"])
                             (JArr []) [])
           ["retro games"; "Emulators"] ["Emulators"; "retro games"]
           "Emulators" "Emulators" eq_refl eq_refl).
  - apply Permutation_swap.
  - repeat constructor.
  - repeat constructor.
  - reflexivity.
Defined.
